(** * download_youtube.py: a shallow embedding and its properties

    The script is a thin wrapper around yt-dlp.  What it computes itself is
    - [detect_platform]: a label from the URL's network location,
    - [safe_title]: a file name without characters the file system rejects,
    - [download]: the output template and the option dictionary handed to
      [yt_dlp.YoutubeDL], after creating the output directory,
    - [main]: the [try ... except KeyboardInterrupt] around [download].

    Python's [str] is a sequence of Unicode code points; it is modelled as a
    list of code points.  Library calls whose result depends on the outside
    world (urllib's parser, the home directory, yt-dlp itself) are fields of
    the record [externals]; the file system is an explicit state. *)

From Stdlib Require Import NArith ZArith Lia Ascii String List Bool.
From stdpp Require Import gmap strings list fin_maps.

Local Open Scope N_scope.

(* ====================================================================== *)
(** ** Python strings *)
(* ====================================================================== *)

Module PyStr.

(** A [str] is a list of code points. *)
Abbreviation pystr := (list N).

(** ASCII literals of the source are written [py "..."]. *)
Fixpoint py (s : string) : pystr :=
  match s with
  | EmptyString => []
  | String a r => N_of_ascii a :: py r
  end.

(** [str.isspace] on one code point: CPython's [_PyUnicode_IsWhitespace]. *)
Definition isspace (c : N) : bool :=
  ((0x09 <=? c) && (c <=? 0x0D)) || ((0x1C <=? c) && (c <=? 0x20))
  || (c =? 0x85) || (c =? 0xA0) || (c =? 0x1680)
  || ((0x2000 <=? c) && (c <=? 0x200A))
  || (c =? 0x2028) || (c =? 0x2029) || (c =? 0x202F) || (c =? 0x205F)
  || (c =? 0x3000).

(** Membership of a code point in a string used as a character set. *)
Definition char_in (chars : pystr) (c : N) : bool := existsb (N.eqb c) chars.

(** [s.lstrip(...)], [s.rstrip(...)], [s.strip(...)] for the set of code
    points accepted by [drop]. *)
Fixpoint lstrip_by (drop : N -> bool) (s : pystr) : pystr :=
  match s with
  | [] => []
  | c :: r => if drop c then lstrip_by drop r else s
  end.

Definition rstrip_by (drop : N -> bool) (s : pystr) : pystr :=
  rev (lstrip_by drop (rev s)).

Definition strip_by (drop : N -> bool) (s : pystr) : pystr :=
  rstrip_by drop (lstrip_by drop s).

(** [s.strip()] without argument strips white space. *)
Definition strip (s : pystr) : pystr := strip_by isspace s.

(** [s.rstrip(chars)]. *)
Definition rstrip_chars (chars s : pystr) : pystr := rstrip_by (char_in chars) s.

(** [s.startswith(p)]. *)
Fixpoint startswith (p s : pystr) : bool :=
  match p, s with
  | [], _ => true
  | _ :: _, [] => false
  | a :: p', b :: s' => (a =? b) && startswith p' s'
  end.

(** [p in s] for strings: [p] occurs in [s] as a contiguous substring. *)
Fixpoint contains (p s : pystr) : bool :=
  startswith p s ||
  match s with
  | [] => false
  | _ :: r => contains p r
  end.

(** [sep.join(parts)]. *)
Fixpoint join (sep : pystr) (parts : list pystr) : pystr :=
  match parts with
  | [] => []
  | [x] => x
  | x :: r => x ++ sep ++ join sep r
  end.

(** [s.split(sep)] for a one-character separator. *)
Fixpoint split_char (sep : N) (s : pystr) : list pystr :=
  match s with
  | [] => [[]]
  | c :: r =>
      if c =? sep then [] :: split_char sep r
      else match split_char sep r with
           | [] => [[c]]
           | w :: ws => (c :: w) :: ws
           end
  end.

(** [re.sub(pattern, repl, s)] where [pattern] is a character class: every
    code point of the class is one match, replaced by [repl]. *)
Definition re_sub_class (class : N -> bool) (repl s : pystr) : pystr :=
  flat_map (fun c => if class c then repl else [c]) s.

(** The [k] lower-case hexadecimal digits of [n], most significant first. *)
Definition hexdigit (d : N) : N := if d <? 10 then 0x30 + d else 0x57 + d.

Fixpoint hex (k : nat) (n : N) : pystr :=
  match k with
  | O => []
  | S k' => hex k' (n / 16) ++ [hexdigit (n mod 16)]
  end.

(** [repr(s)] for a string, CPython's [unicode_repr]: single quotes unless
    the string holds a single quote and no double quote; the quote and the
    backslash are escaped; tab, newline and carriage return are written as
    their escapes, other controls and every code point that is not
    printable as a hexadecimal escape.  [printable] is
    [Py_UNICODE_ISPRINTABLE], asked for code points above ASCII only. *)
Definition repr_char (printable : N -> bool) (quote c : N) : pystr :=
  if (c =? quote) || (c =? 0x5C) then [0x5C; c]
  else if c =? 0x09 then [0x5C; 0x74]
  else if c =? 0x0A then [0x5C; 0x6E]
  else if c =? 0x0D then [0x5C; 0x72]
  else if (c <? 0x20) || (c =? 0x7F) then [0x5C; 0x78] ++ hex 2 c
  else if c <? 0x7F then [c]
  else if printable c then [c]
  else if c <=? 0xFF then [0x5C; 0x78] ++ hex 2 c
  else if c <=? 0xFFFF then [0x5C; 0x75] ++ hex 4 c
  else [0x5C; 0x55] ++ hex 8 c.

Definition repr (printable : N -> bool) (s : pystr) : pystr :=
  let quote :=
    if existsb (N.eqb 0x27) s && negb (existsb (N.eqb 0x22) s)
    then 0x22 else 0x27 in
  [quote] ++ flat_map (repr_char printable quote) s ++ [quote].

(** [bool(s)]: a string is true when it is not empty. *)
Definition truthy (s : pystr) : bool :=
  match s with [] => false | _ => true end.

End PyStr.
Export PyStr.

(* ====================================================================== *)
(** ** Helpers of the script *)
(* ====================================================================== *)

(** The character class of the pattern in [safe_title]: less-than,
    greater-than, colon, double quote, slash, backslash, vertical bar,
    question mark and asterisk. *)
Definition illegal_chars : pystr :=
  [0x3C; 0x3E; 0x3A; 0x22; 0x2F; 0x5C; 0x7C; 0x3F; 0x2A].

Definition illegal (c : N) : bool := char_in illegal_chars c.

(** [safe_title(title)]: [re.sub] of that class by an underscore, then
    [.strip()]. *)
Definition safe_title (title : pystr) : pystr :=
  strip (re_sub_class illegal (py "_") title).

(** [str.lower()].  ASCII letters are lowered by the ASCII table; what a
    code point outside ASCII becomes is decided by the Unicode database
    [db], which sees the text before it (reversed) and after it, as the
    final-sigma rule needs, and may answer with several code points. *)
Definition ascii_lower (c : N) : N :=
  if (0x41 <=? c) && (c <=? 0x5A) then c + 32 else c.

Fixpoint lower_from (db : pystr -> N -> pystr -> pystr)
    (before s : pystr) : pystr :=
  match s with
  | [] => []
  | c :: r =>
      (if c <? 0x80 then [ascii_lower c] else db before c r)
        ++ lower_from db (c :: before) r
  end.

Definition lower (db : pystr -> N -> pystr -> pystr) (s : pystr) : pystr :=
  lower_from db [] s.

(* ====================================================================== *)
(** ** Exceptions and results *)
(* ====================================================================== *)

(** The argument of [SystemExit]. *)
Inductive exit_arg :=
  | ExitNone
  | ExitInt (n : Z)
  | ExitStr (s : pystr).

(** Exceptions, by what the script and the interpreter tell apart:
    [KeyboardInterrupt], [SystemExit], and every other exception, an
    error named by its class with its message. *)
Inductive exn :=
  | KeyboardInterrupt
  | SystemExit (a : exit_arg)
  | Error (cls : string) (msg : pystr).

Inductive result (A : Type) :=
  | Ok (a : A)
  | Raise (e : exn).
Arguments Ok {A} a.
Arguments Raise {A} e.

(* ====================================================================== *)
(** ** Paths and the file system *)
(* ====================================================================== *)

Module Pathlib.

(** A POSIX [PurePath]: its root (empty, one slash or two slashes) and the
    components after the root. *)
Record PurePath := mkPath { root : pystr; parts : list pystr }.

Definition sep : N := 0x2F.

(** [_PosixFlavour.splitroot]. *)
Definition splitroot (part : pystr) : pystr * pystr :=
  match part with
  | c :: _ =>
      if c =? sep then
        let stripped := lstrip_by (N.eqb sep) part in
        if Nat.eqb (length part - length stripped) 2
        then ([sep; sep], stripped)
        else ([sep], stripped)
      else ([], part)
  | [] => ([], [])
  end.

Definition is_component (x : pystr) : bool :=
  truthy x && negb (bool_decide (x = py ".")).

(** [Path(s)]: [parse_parts] on one string. *)
Definition Path (s : pystr) : PurePath :=
  let '(r, rel) := splitroot s in
  mkPath r (filter (fun x => is_component x = true) (split_char sep rel)).

(** [p / key]: [_make_child], that is [join_parsed_parts] without drives. *)
Definition truediv (p : PurePath) (key : pystr) : PurePath :=
  let q := Path key in
  if truthy (root q) then q else mkPath (root p) (parts p ++ parts q).

(** [str(p)]. *)
Definition Path_str (p : PurePath) : pystr :=
  if truthy (root p) then root p ++ join [sep] (parts p)
  else match parts p with
       | [] => py "."
       | _ => join [sep] (parts p)
       end.

(** [p.parent]. *)
Definition parent (p : PurePath) : PurePath :=
  mkPath (root p) (removelast (parts p)).

(** [p.expanduser()]; [os_path_expanduser] is [os.path.expanduser], which
    reads the environment. *)
Definition expanduser (os_path_expanduser : pystr -> pystr) (p : PurePath)
  : result PurePath :=
  match root p, parts p with
  | [], first :: rest =>
      if startswith (py "~") first then
        let homedir := os_path_expanduser first in
        if startswith (py "~") homedir
        then Raise (Error "RuntimeError"
                      (py "Could not determine home directory."))
        else let h := Path homedir in
             Ok (mkPath (root h) (parts h ++ rest))
      else Ok p
  | _, _ => Ok p
  end.

(** The file system: which paths name a directory and which a file.  A
    key is a root and the components below it, with the current directory
    as root of the relative paths; the current directory and the root
    directories always exist.  The component [..] is not a name: it leads to
    the directory above, so a key holds it only in front, for the
    directories above the current one, which exist and are taken to be
    distinct from what lies below.  There are no links and every directory
    may be written. *)
Inductive node := Dir | File.

Definition key (p : PurePath) : pystr * list pystr := (root p, parts p).

Abbreviation fs := (gmap (pystr * list pystr) node).

Inductive os_error := FileNotFoundError | FileExistsError | NotADirectoryError.

Definition os_error_name (e : os_error) : string :=
  match e with
  | FileNotFoundError => "FileNotFoundError"
  | FileExistsError => "FileExistsError"
  | NotADirectoryError => "NotADirectoryError"
  end.

(** [errno] and [strerror] of the three errors (Linux). *)
Definition os_error_errno (e : os_error) : pystr :=
  match e with
  | FileNotFoundError => py "2"
  | FileExistsError => py "17"
  | NotADirectoryError => py "20"
  end.

Definition os_error_strerror (e : os_error) : pystr :=
  match e with
  | FileNotFoundError => py "No such file or directory"
  | FileExistsError => py "File exists"
  | NotADirectoryError => py "Not a directory"
  end.

(** [str(exc)] for an [OSError] with a file name. *)
Definition os_error_message (printable : N -> bool) (e : os_error)
    (filename : pystr) : pystr :=
  py "[Errno " ++ os_error_errno e ++ py "] " ++ os_error_strerror e
    ++ py ": " ++ repr printable filename.

(** The directory above the directory [seen] under the root [r]: a root
    is its own parent, and above the current directory come the keys made
    of [..] only. *)
Definition is_dotdot (c : pystr) : bool := bool_decide (c = py "..").

Definition up (r : pystr) (seen : list pystr) : list pystr :=
  if negb (truthy r) && forallb is_dotdot seen then seen ++ [py ".."]
  else removelast seen.

(** Resolution of a path, component by component, from the directory
    [seen]: the directory reached, or the error of the first component that
    is missing or is a file. *)
Fixpoint walk (f : fs) (r : pystr) (seen todo : list pystr)
  : os_error + list pystr :=
  match todo with
  | [] => inr seen
  | c :: rest =>
      if is_dotdot c then walk f r (up r seen) rest
      else match f !! (r, seen ++ [c]) with
           | None => inl FileNotFoundError
           | Some File => inl NotADirectoryError
           | Some Dir => walk f r (seen ++ [c]) rest
           end
  end.

(** [p.is_dir()]. *)
Definition is_dir (f : fs) (p : PurePath) : bool :=
  match walk f (root p) [] (parts p) with
  | inr _ => true
  | inl _ => false
  end.

(** [os.mkdir(p)]: the directories leading to [p] are resolved, then the
    last component is created there unless it exists; [..] as last
    component names a directory that exists. *)
Definition os_mkdir (f : fs) (p : PurePath) : os_error + fs :=
  match parts p with
  | [] => inl FileExistsError
  | _ :: _ =>
      match walk f (root p) [] (parts (parent p)) with
      | inl e => inl e
      | inr dir =>
          let c := List.last (parts p) [] in
          if is_dotdot c then inl FileExistsError
          else match f !! (root p, dir ++ [c]) with
               | Some _ => inl FileExistsError
               | None => inr (<[(root p, dir ++ [c]) := Dir]> f)
               end
      end
  end.

(** [p.mkdir(parents=False, exist_ok=True)]; an error comes with the path
    it names. *)
Definition mkdir_exist_ok (f : fs) (p : PurePath)
  : fs * option (os_error * PurePath) :=
  match os_mkdir f p with
  | inr f' => (f', None)
  | inl FileNotFoundError => (f, Some (FileNotFoundError, p))
  | inl e => if is_dir f p then (f, None) else (f, Some (e, p))
  end.

(** [p.mkdir(parents=True, exist_ok=True)], by recursion on the components
    of [p] in reverse, as [Path.mkdir] recurses on [self.parent]. *)
Fixpoint mkdir_parents (f : fs) (r : pystr) (rparts : list pystr)
  : fs * option (os_error * PurePath) :=
  let self := mkPath r (rev rparts) in
  match os_mkdir f self with
  | inr f' => (f', None)
  | inl FileNotFoundError =>
      match rparts with
      | [] => (f, Some (FileNotFoundError, self))
      | _ :: rp =>
          match mkdir_parents f r rp with
          | (f1, Some e) => (f1, Some e)
          | (f1, None) => mkdir_exist_ok f1 self
          end
      end
  | inl e => if is_dir f self then (f, None) else (f, Some (e, self))
  end.

Definition mkdir (f : fs) (p : PurePath)
  : fs * option (os_error * PurePath) :=
  mkdir_parents f (root p) (rev (parts p)).

End Pathlib.
Export Pathlib.

(* ====================================================================== *)
(** ** The outside world *)
(* ====================================================================== *)

(** Values stored in the option dictionary of yt-dlp: booleans, strings,
    and the list of post-processor dictionaries. *)
Inductive value :=
  | VBool (b : bool)
  | VStr (s : pystr)
  | VPostprocessors (l : list (gmap string pystr)).

(** Library calls that the script makes and does not define. *)
Record externals := {
  (** the Unicode database behind [str.lower] *)
  unicode_lower : pystr -> N -> pystr -> pystr;
  (** the Unicode database behind [repr]: [Py_UNICODE_ISPRINTABLE] *)
  unicode_printable : N -> bool;
  (** [urllib.parse.urlparse(url).netloc], or the exception it raises *)
  urlparse_netloc : pystr -> result pystr;
  (** [os.path.expanduser] *)
  os_path_expanduser : pystr -> pystr;
  (** [print(s)]: writing to [sys.stdout] may fail *)
  stdout_write : pystr -> option exn;
  (** [with yt_dlp.YoutubeDL(opts) as ydl: ydl.download(urls)] *)
  ydl_download : gmap string value -> list pystr -> fs -> fs * option exn;
}.

(** What a run does that the outside can observe, in order. *)
Inductive event :=
  | EvPrint (s : pystr)
  | EvDownload (opts : gmap string value) (urls : list pystr) (at_call : fs).

(** Computations: they read and change the file system, emit events, and
    return or raise. *)
Definition M (A : Type) : Type := fs -> fs * list event * result A.

Definition ret {A} (a : A) : M A := fun f => (f, [], Ok a).

Definition raise {A} (e : exn) : M A := fun f => (f, [], Raise e).

Definition bind {A B} (m : M A) (k : A -> M B) : M B :=
  fun f =>
    match m f with
    | (f1, ev1, Ok a) =>
        match k a f1 with
        | (f2, ev2, r) => (f2, ev1 ++ ev2, r)
        end
    | (f1, ev1, Raise e) => (f1, ev1, Raise e)
    end.

#[global] Instance M_ret : MRet M := @ret.
#[global] Instance M_bind : MBind M := fun A B k m => bind m k.

(** [try: m except KeyboardInterrupt: h]. *)
Definition try_except_KeyboardInterrupt {A} (m h : M A) : M A :=
  fun f =>
    match m f with
    | (f1, ev1, Raise KeyboardInterrupt) =>
        match h f1 with
        | (f2, ev2, r) => (f2, ev1 ++ ev2, r)
        end
    | other => other
    end.

Definition lift {A} (r : result A) : M A := fun f => (f, [], r).

Definition print (E : externals) (s : pystr) : M unit :=
  fun f =>
    match stdout_write E s with
    | None => (f, [EvPrint s], Ok tt)
    | Some e => (f, [], Raise e)
    end.

Definition Path_mkdir (E : externals) (p : PurePath) : M unit :=
  fun f =>
    match mkdir f p with
    | (f1, None) => (f1, [], Ok tt)
    | (f1, Some (e, q)) =>
        (f1, [],
         Raise (Error (os_error_name e)
                  (os_error_message (unicode_printable E) e (Path_str q))))
    end.

Definition YoutubeDL_download (E : externals) (opts : gmap string value)
    (urls : list pystr) : M unit :=
  fun f =>
    match ydl_download E opts urls f with
    | (f1, None) => (f1, [EvDownload opts urls f], Ok tt)
    | (f1, Some e) => (f1, [EvDownload opts urls f], Raise e)
    end.

(** [sys.exit(arg)]. *)
Definition sys_exit {A} (arg : exit_arg) : M A := raise (SystemExit arg).

(* ====================================================================== *)
(** ** The script *)
(* ====================================================================== *)

Definition youtube_hosts : list pystr :=
  [py "youtube.com"; py "youtu.be"; py "youtube-nocookie.com"].

Definition instagram_hosts : list pystr :=
  [py "instagram.com"; py "instagr.am"].

(** [detect_platform(url)]. *)
Definition detect_platform (E : externals) (url : pystr) : result pystr :=
  match urlparse_netloc E url with
  | Raise e => Raise e
  | Ok n =>
      let netloc := lower (unicode_lower E) n in
      if existsb (fun p => contains p netloc) youtube_hosts
      then Ok (py "youtube")
      else if existsb (fun p => contains p netloc) instagram_hosts
      then Ok (py "instagram")
      else Ok (py "other")
  end.

(** [custom_name or default]: [None] and the empty string are false. *)
Definition or_else (custom_name : option pystr) (default : pystr) : pystr :=
  match custom_name with
  | Some n => if truthy n then n else default
  | None => default
  end.

(** Right arrow, check mark and the stop sign with its variation selector,
    the code points outside ASCII in the messages. *)
Definition arrow : pystr := [0x2192].
Definition check_mark : pystr := [0x2705].
Definition stop_sign : pystr := [0x23F9; 0xFE0F].
Definition nl : pystr := [0x0A].

(** [download(url, *, audio_only, quality, out_dir, custom_name)]. *)
Definition download (E : externals) (url : pystr) (audio_only : bool)
    (quality out_dir : pystr) (custom_name : option pystr) : M unit :=
  out_path ← lift (expanduser (os_path_expanduser E) (Path out_dir));
  Path_mkdir E out_path;;
  (* build output template *)
  let template := strip (or_else custom_name (py "%(title)s")) in
  let template := safe_title template in
  let template := Path_str (truediv out_path (template ++ py ".%(ext)s")) in
  (* yt-dlp option block *)
  let ydl_opts : gmap string value :=
    <["no_warnings" := VBool true]>
      (<["quiet" := VBool false]>
        (<["ignoreerrors" := VBool false]>
          (<["outtmpl" := VStr template]> ∅))) in
  (* format selection *)
  let ydl_opts : gmap string value :=
    if audio_only then
      (* dict.update: the keys of the argument are set *)
      <["postprocessors" := VPostprocessors
          [ <["preferredquality" := py "192"]>
              (<["preferredcodec" := py "mp3"]>
                (<["key" := py "FFmpegExtractAudio"]> ∅)) ]]>
        (<["format" := VStr (py "bestaudio/best")]> ydl_opts)
    else if bool_decide (quality = py "best") then
      <["format" :=
          VStr (py "bestvideo[ext=mp4]+bestaudio[ext=m4a]/best[ext=mp4]/best")]>
        ydl_opts
    else if bool_decide (quality = py "worst") then
      <["format" := VStr (py "worst")]> ydl_opts
    else
      let height := rstrip_chars (py "p") quality in
      <["format" :=
          VStr (py "bestvideo[height<=" ++ height
                  ++ py "][ext=mp4]+bestaudio[ext=m4a]"
                  ++ py "/best[height<=" ++ height ++ py "]/best")]>
        ydl_opts in
  platform ← lift (detect_platform E url);
  print E (arrow ++ py " platform: " ++ platform);;
  print E (arrow ++ py " saving to: " ++ Path_str out_path ++ nl);;
  YoutubeDL_download E ydl_opts [url];;
  print E (check_mark ++ py " finished" ++ nl).

(** The namespace returned by [argparse]. *)
Record Namespace := {
  args_url : pystr;
  args_audio_only : bool;
  args_quality : pystr;
  args_output_dir : pystr;
  args_name : option pystr;
}.

Definition abort_message : pystr :=
  nl ++ stop_sign ++ py "  aborted by user".

(** The [try] statement of [main], on parsed arguments. *)
Definition main (E : externals) (args : Namespace) : M unit :=
  try_except_KeyboardInterrupt
    (download E (args_url args) (args_audio_only args) (args_quality args)
       (args_output_dir args) (args_name args))
    (sys_exit (ExitStr abort_message)).

(** The namespace when only the URL is given. *)
Definition default_args (url : pystr) : Namespace :=
  {| args_url := url; args_audio_only := false; args_quality := py "best";
     args_output_dir := py "downloads"; args_name := None |}.

(** How the interpreter ends the process: what it writes to [stderr] and
    the exit status. *)
Inductive stderr_output :=
  | Silent
  | Message (s : pystr)
  | Traceback (cls : string) (msg : pystr).

(** The status of [sys.exit(n)]: the integer is converted to a C [long]
    (64 bits), minus one when it does not fit, and the process status is
    its low eight bits. *)
Definition exit_status_of_int (n : Z) : Z :=
  if ((- 2 ^ 63 <=? n) && (n <? 2 ^ 63))%Z then (n mod 256)%Z else 255%Z.

Definition interpreter_exit (r : result unit) : stderr_output * Z :=
  match r with
  | Ok _ => (Silent, 0%Z)
  | Raise (SystemExit ExitNone) => (Silent, 0%Z)
  | Raise (SystemExit (ExitInt n)) => (Silent, exit_status_of_int n)
  | Raise (SystemExit (ExitStr s)) => (Message s, 1%Z)
  | Raise KeyboardInterrupt => (Traceback "KeyboardInterrupt" [], 130%Z)
  | Raise (Error cls msg) => (Traceback cls msg, 1%Z)
  end.

(** Projections of a run. *)
Definition events {A} (x : fs * list event * result A) : list event := x.1.2.
Definition outcome {A} (x : fs * list event * result A) : result A := x.2.

(** The tiers of a format selector, separated by slashes. *)
Definition tiers (selector : pystr) : list pystr := split_char sep selector.

(* ====================================================================== *)
(** ** A reference environment *)
(* ====================================================================== *)

Module Reference.

Definition is_ascii_alpha (c : N) : bool :=
  ((0x41 <=? c) && (c <=? 0x5A)) || ((0x61 <=? c) && (c <=? 0x7A)).

Definition is_digit (c : N) : bool := (0x30 <=? c) && (c <=? 0x39).

(** [scheme_chars] of [urllib.parse]. *)
Definition scheme_char (c : N) : bool :=
  is_ascii_alpha c || is_digit c || char_in (py "+-.") c.

(** The longest prefix of [s] whose code points satisfy [keep]. *)
Fixpoint prefix_while (keep : N -> bool) (s : pystr) : pystr :=
  match s with
  | [] => []
  | c :: r => if keep c then c :: prefix_while keep r else []
  end.

(** [s.find(c)]. *)
Fixpoint find_char (c : N) (s : pystr) : option nat :=
  match s with
  | [] => None
  | x :: r => if x =? c then Some O else S <$> find_char c r
  end.

(** The network location computed by [urllib.parse.urlsplit] (CPython
    3.11), which [urlparse] returns unchanged.  The validation of a
    bracketed host by [ipaddress] and of a non-ASCII host by
    [unicodedata] are the arguments [bracketed_ok] and [nfkc_ok]. *)
Definition urlsplit_netloc (bracketed_ok nfkc_ok : pystr -> bool)
    (url : pystr) : result pystr :=
  (* url.lstrip(_WHATWG_C0_CONTROL_OR_SPACE) *)
  let url := lstrip_by (fun c => c <=? 0x20) url in
  (* _UNSAFE_URL_BYTES_TO_REMOVE *)
  let url := List.filter (fun c => negb (char_in [0x09; 0x0D; 0x0A] c)) url in
  let url :=
    match find_char 0x3A url with
    | Some (S i) =>
        if is_ascii_alpha (List.hd 0 url) && forallb scheme_char (take (S i) url)
        then drop (S (S i)) url
        else url
    | _ => url
    end in
  if startswith (py "//") url then
    let netloc :=
      prefix_while (fun c => negb (char_in (py "/?#") c)) (drop 2 url) in
    let has_open := char_in netloc 0x5B in
    let has_close := char_in netloc 0x5D in
    if (has_open && negb has_close) || (has_close && negb has_open)
    then Raise (Error "ValueError" (py "Invalid IPv6 URL"))
    else if has_open && has_close && negb (bracketed_ok netloc)
    then Raise (Error "ValueError" (py "Invalid IPv6 URL"))
    else if forallb (fun c => c <? 0x80) netloc || nfkc_ok netloc
    then Ok netloc
    else Raise (Error "ValueError"
                  (py "netloc contains invalid characters under NFKC normalization"))
  else Ok [].

(** An environment for runs on ASCII text: the home directory is
    [/home/user], writing to [stdout] succeeds, and the delegate leaves the
    file system alone and ends as [delegate] says. *)
Definition env (delegate : option exn) : externals := {|
  unicode_lower := fun _ c _ => [c];
  unicode_printable := fun _ => true;
  urlparse_netloc := urlsplit_netloc (fun _ => true) (fun _ => true);
  os_path_expanduser :=
    fun s => if bool_decide (s = py "~") then py "/home/user" else s;
  stdout_write := fun _ => None;
  ydl_download := fun _ _ f => (f, delegate);
|}.

End Reference.

(* ====================================================================== *)
(** ** Derived definitions used in the statements *)
(* ====================================================================== *)

(** The post-processor dictionary of the audio branch. *)
Definition extract_audio_mp3_192 : gmap string pystr :=
  <["preferredquality" := py "192"]>
    (<["preferredcodec" := py "mp3"]>
      (<["key" := py "FFmpegExtractAudio"]> ∅)).

Definition best_selector : pystr :=
  py "bestvideo[ext=mp4]+bestaudio[ext=m4a]/best[ext=mp4]/best".

Definition selector_720 : pystr :=
  py "bestvideo[height<=720][ext=mp4]+bestaudio[ext=m4a]/best[height<=720]/best".

(** The template and the dictionary that the body of [download] builds once
    [out_path] is known (the lines between [mkdir] and the first [print]);
    [download_run] below shows that these are what the delegate receives. *)
Definition template_of (out_path : PurePath) (custom_name : option pystr)
  : pystr :=
  Path_str
    (truediv out_path
       (safe_title (strip (or_else custom_name (py "%(title)s")))
          ++ py ".%(ext)s")).

Definition format_of (quality : pystr) : pystr :=
  if bool_decide (quality = py "best") then best_selector
  else if bool_decide (quality = py "worst") then py "worst"
  else py "bestvideo[height<=" ++ rstrip_chars (py "p") quality
         ++ py "][ext=mp4]+bestaudio[ext=m4a]"
         ++ py "/best[height<=" ++ rstrip_chars (py "p") quality
         ++ py "]/best".

Definition base_options (template : pystr) : gmap string value :=
  <["no_warnings" := VBool true]>
    (<["quiet" := VBool false]>
      (<["ignoreerrors" := VBool false]>
        (<["outtmpl" := VStr template]> ∅))).

Definition options_of (out_path : PurePath) (audio_only : bool)
    (quality : pystr) (custom_name : option pystr) : gmap string value :=
  if audio_only then
    <["postprocessors" := VPostprocessors [extract_audio_mp3_192]]>
      (<["format" := VStr (py "bestaudio/best")]>
         (base_options (template_of out_path custom_name)))
  else
    <["format" := VStr (format_of quality)]>
      (base_options (template_of out_path custom_name)).

(** The three messages printed by [download]. *)
Definition platform_line (platform : pystr) : pystr :=
  arrow ++ py " platform: " ++ platform.
Definition saving_line (out_path : PurePath) : pystr :=
  arrow ++ py " saving to: " ++ Path_str out_path ++ nl.
Definition finished_line : pystr := check_mark ++ py " finished" ++ nl.

(** The sanitizer as the sentence on removal reads: the characters of the
    class are deleted, the others kept, the ends trimmed. *)
Definition safe_title_deleting (title : pystr) : pystr :=
  strip (List.filter (fun c => negb (illegal c)) title).

(** The template as the sentence on the file name template reads: the
    custom name whenever one is given, else the title placeholder;
    sanitized; joined under the output directory with the extension
    placeholder. *)
Definition template_as_described (out_path : PurePath)
    (custom_name : option pystr) : pystr :=
  Path_str
    (truediv out_path
       (safe_title (match custom_name with
                    | Some n => n
                    | None => py "%(title)s"
                    end)
          ++ py ".%(ext)s")).

(** The text of a path up to and including the slash that follows its last
    component: what [str(p / name)] puts before [name]. *)
Definition dir_prefix (p : PurePath) : pystr :=
  root p ++ concat (map (fun x => x ++ [sep]) (parts p)).

(** A code point that [str.lower] leaves alone whatever surrounds it: ASCII
    and not an upper-case letter. *)
Definition lower_stable (c : N) : bool :=
  (c <? 0x80) && negb ((0x41 <=? c) && (c <=? 0x5A)).

Definition underscore : N := 0x5F.

(** What the sanitizer does to one code point. *)
Definition replace_illegal (c : N) : N := if illegal c then underscore else c.

(* ====================================================================== *)
(** * Properties *)
(* ====================================================================== *)

(** ** Stripping *)

Section strip_facts.
Variable d : N -> bool.

Lemma lstrip_by_all (s : pystr) :
  forallb d s = true -> lstrip_by d s = [].
Proof.
  induction s as [|c r IH]; simpl; [reflexivity|].
  intros H. apply andb_prop in H as [Hc Hr]. rewrite Hc. auto.
Qed.

Lemma lstrip_by_app_drop (a s : pystr) :
  forallb d a = true -> lstrip_by d (a ++ s) = lstrip_by d s.
Proof.
  induction a as [|c r IH]; simpl; [reflexivity|].
  intros H. apply andb_prop in H as [Hc Hr]. rewrite Hc. auto.
Qed.

Lemma lstrip_by_split (s : pystr) :
  exists a, forallb d a = true /\ s = a ++ lstrip_by d s.
Proof.
  induction s as [|c r [a [Ha Hs]]]; simpl.
  - exists []. split; reflexivity.
  - destruct (d c) eqn:Hc.
    + exists (c :: a). simpl. rewrite Hc, Ha. split; [reflexivity|].
      f_equal. exact Hs.
    + exists []. split; reflexivity.
Qed.

Lemma lstrip_by_head (s : pystr) :
  match lstrip_by d s with c :: _ => d c = false | [] => True end.
Proof.
  induction s as [|c r IH]; simpl; [exact I|].
  destruct (d c) eqn:Hc; [exact IH | exact Hc].
Qed.

Lemma lstrip_by_app_keep (s t : pystr) :
  lstrip_by d s <> [] -> lstrip_by d (s ++ t) = lstrip_by d s ++ t.
Proof.
  induction s as [|c r IH]; simpl; [congruence|].
  destruct (d c); [exact IH | reflexivity].
Qed.

Lemma lstrip_by_fixed (s : pystr) :
  match s with c :: _ => d c = false | [] => True end ->
  lstrip_by d s = s.
Proof. destruct s as [|c r]; simpl; [reflexivity|]. intros ->. reflexivity. Qed.

Lemma forallb_rev (s : pystr) : forallb d (rev s) = forallb d s.
Proof.
  induction s as [|c r IH]; simpl; [reflexivity|].
  rewrite forallb_app, IH. simpl. rewrite andb_true_r. apply andb_comm.
Qed.

Lemma rstrip_by_app_drop (s b : pystr) :
  forallb d b = true -> rstrip_by d (s ++ b) = rstrip_by d s.
Proof.
  intros H. unfold rstrip_by. rewrite rev_app_distr.
  rewrite lstrip_by_app_drop; [reflexivity|]. rewrite forallb_rev. exact H.
Qed.

Lemma rstrip_by_split (s : pystr) :
  exists b, forallb d b = true /\ s = rstrip_by d s ++ b.
Proof.
  destruct (lstrip_by_split (rev s)) as [a [Ha Hs]].
  exists (rev a). split.
  - rewrite forallb_rev. exact Ha.
  - unfold rstrip_by. rewrite <- rev_app_distr, <- Hs.
    symmetry. apply rev_involutive.
Qed.

Lemma rstrip_by_last (s : pystr) :
  match rev (rstrip_by d s) with c :: _ => d c = false | [] => True end.
Proof. unfold rstrip_by. rewrite rev_involutive. apply lstrip_by_head. Qed.

Lemma rstrip_by_nil_iff (s : pystr) :
  rstrip_by d s = [] <-> forallb d s = true.
Proof.
  split.
  - intros H. destruct (rstrip_by_split s) as [b [Hb Hs]].
    rewrite H in Hs. simpl in Hs. subst b. exact Hb.
  - intros H. unfold rstrip_by. rewrite lstrip_by_all; [reflexivity|].
    rewrite forallb_rev. exact H.
Qed.

(** Stripping on the right keeps the first code point. *)
Lemma rstrip_by_head (s : pystr) :
  match s with c :: _ => d c = false | [] => True end ->
  match rstrip_by d s with c :: _ => d c = false | [] => True end.
Proof.
  intros H. destruct (rstrip_by_split s) as [b [Hb Hs]].
  destruct (rstrip_by d s) as [|c r] eqn:E; [exact I|].
  rewrite Hs in H. exact H.
Qed.

Lemma strip_by_split (s : pystr) :
  exists a b, forallb d a = true /\ forallb d b = true /\
              s = a ++ strip_by d s ++ b.
Proof.
  destruct (lstrip_by_split s) as [a [Ha Hs]].
  destruct (rstrip_by_split (lstrip_by d s)) as [b [Hb Hm]].
  exists a, b. repeat split; try assumption.
  unfold strip_by. rewrite <- Hm. exact Hs.
Qed.

Lemma strip_by_first (s : pystr) :
  match strip_by d s with c :: _ => d c = false | [] => True end.
Proof. apply rstrip_by_head, lstrip_by_head. Qed.

Lemma strip_by_last (s : pystr) :
  match rev (strip_by d s) with c :: _ => d c = false | [] => True end.
Proof. apply rstrip_by_last. Qed.

(** Padding with dropped code points does not change the result. *)
Lemma strip_by_pad (a s b : pystr) :
  forallb d a = true -> forallb d b = true ->
  strip_by d (a ++ s ++ b) = strip_by d s.
Proof.
  intros Ha Hb. unfold strip_by. rewrite lstrip_by_app_drop by exact Ha.
  destruct (lstrip_by d s) as [|c r] eqn:E.
  - destruct (lstrip_by_split s) as [a' [Ha' Hs]]. rewrite E, app_nil_r in Hs.
    subst a'. rewrite lstrip_by_all.
    + reflexivity.
    + rewrite forallb_app, Ha', Hb. reflexivity.
  - rewrite lstrip_by_app_keep by (rewrite E; discriminate).
    rewrite E. apply rstrip_by_app_drop. exact Hb.
Qed.

Lemma strip_by_idem (s : pystr) : strip_by d (strip_by d s) = strip_by d s.
Proof.
  destruct (strip_by_split s) as [a [b [Ha [Hb Hs]]]].
  rewrite Hs at 2. symmetry. apply strip_by_pad; assumption.
Qed.

End strip_facts.

(** ** The sanitizer *)

Lemma re_sub_class_one (class : N -> bool) (u : N) (s : pystr) :
  re_sub_class class [u] s = map (fun c => if class c then u else c) s.
Proof.
  unfold re_sub_class.
  induction s as [|c r IH]; simpl; [reflexivity|].
  rewrite IH. destruct (class c); reflexivity.
Qed.

Lemma illegal_not_space (c : N) : illegal c = true -> isspace c = false.
Proof.
  unfold illegal, char_in, illegal_chars. simpl. intros H.
  repeat (apply orb_prop in H as [H|H];
          [apply N.eqb_eq in H; subst c; reflexivity|]).
  discriminate.
Qed.

Lemma space_not_illegal (c : N) : isspace c = true -> illegal c = false.
Proof.
  intros H. destruct (illegal c) eqn:E; [|reflexivity].
  apply illegal_not_space in E. congruence.
Qed.

Lemma replace_illegal_legal (c : N) : illegal (replace_illegal c) = false.
Proof. unfold replace_illegal. destruct (illegal c) eqn:E; [reflexivity|exact E]. Qed.

Lemma replace_illegal_space (s : pystr) :
  forallb isspace s = true -> map replace_illegal s = s.
Proof.
  induction s as [|c r IH]; simpl; [reflexivity|].
  intros H. apply andb_prop in H as [Hc Hr]. rewrite IH by exact Hr.
  unfold replace_illegal. rewrite (space_not_illegal c Hc). reflexivity.
Qed.

Lemma safe_title_map (title : pystr) :
  safe_title title = strip (map replace_illegal title).
Proof. unfold safe_title. simpl py. rewrite re_sub_class_one. reflexivity. Qed.

Lemma forallb_app_inv {A} (P : A -> bool) (a s b : list A) :
  forallb P (a ++ s ++ b) = true -> forallb P s = true.
Proof.
  rewrite !forallb_app. intros H.
  apply andb_prop in H as [_ H]. apply andb_prop in H as [H _]. exact H.
Qed.

Lemma safe_title_legal (title : pystr) :
  forallb (fun c => negb (illegal c)) (safe_title title) = true.
Proof.
  rewrite safe_title_map. unfold strip.
  destruct (strip_by_split isspace (map replace_illegal title))
    as [a [b [_ [_ Hs]]]].
  apply (forallb_app_inv _ a _ b). rewrite <- Hs.
  apply forallb_forall. intros c Hc. apply in_map_iff in Hc as [x [<- _]].
  rewrite replace_illegal_legal. reflexivity.
Qed.

(** The sanitized title is the title with its characters replaced, less
    white space at both ends. *)
Lemma safe_title_padding (title : pystr) :
  exists lead trail,
    forallb isspace lead = true /\ forallb isspace trail = true /\
    lead ++ safe_title title ++ trail = map replace_illegal title.
Proof.
  rewrite safe_title_map. unfold strip.
  destruct (strip_by_split isspace (map replace_illegal title))
    as [a [b [Ha [Hb Hs]]]].
  exists a, b. repeat split; try assumption. symmetry. exact Hs.
Qed.

(** Stripping before sanitizing changes nothing: [download] strips the name
    and [safe_title] strips again. *)
Lemma safe_title_strip (s : pystr) : safe_title (strip s) = safe_title s.
Proof.
  rewrite !safe_title_map. unfold strip.
  destruct (strip_by_split isspace s) as [a [b [Ha [Hb Hs]]]].
  rewrite Hs at 2. rewrite !map_app.
  rewrite (replace_illegal_space a Ha), (replace_illegal_space b Hb).
  symmetry. apply strip_by_pad; assumption.
Qed.

(** ** Substrings and lower-casing *)

Lemma startswith_app (p t : pystr) : startswith p (p ++ t) = true.
Proof.
  induction p as [|c r IH]; simpl; [reflexivity|].
  rewrite N.eqb_refl. exact IH.
Qed.

Lemma startswith_true (p s : pystr) :
  startswith p s = true -> exists t, s = p ++ t.
Proof.
  revert s. induction p as [|c r IH]; intros s H.
  - exists s. reflexivity.
  - destruct s as [|x s']; simpl in H; [discriminate|].
    apply andb_prop in H as [Hc Hr]. apply N.eqb_eq in Hc. subst x.
    destruct (IH s' Hr) as [t ->]. exists t. reflexivity.
Qed.

Lemma contains_startswith (p s : pystr) :
  startswith p s = true -> contains p s = true.
Proof. intros H. destruct s; simpl; rewrite H; reflexivity. Qed.

Lemma contains_app (a p b : pystr) : contains p (a ++ p ++ b) = true.
Proof.
  induction a as [|c r IH]; simpl.
  - apply contains_startswith, startswith_app.
  - rewrite IH. apply orb_true_r.
Qed.

Lemma contains_true (p s : pystr) :
  contains p s = true -> exists a b, s = a ++ p ++ b.
Proof.
  induction s as [|c r IH]; simpl; intros H.
  - rewrite orb_false_r in H. apply startswith_true in H as [t Ht].
    exists [], t. exact Ht.
  - apply orb_prop in H as [H|H].
    + apply startswith_true in H as [t Ht]. exists [], t. exact Ht.
    + destruct (IH H) as [a [b ->]]. exists (c :: a), b. reflexivity.
Qed.

Section lower_facts.
Variable db : pystr -> N -> pystr -> pystr.

Lemma lower_from_app (before s t : pystr) :
  exists x, lower_from db before (s ++ t)
            = x ++ lower_from db (rev s ++ before) t.
Proof.
  revert before. induction s as [|c r IH]; intros before; simpl.
  - exists []. reflexivity.
  - destruct (IH (c :: before)) as [x Hx]. rewrite Hx, <- app_assoc.
    eexists. rewrite app_assoc. reflexivity.
Qed.

Lemma lower_stable_fixed (c : N) :
  lower_stable c = true -> (c <? 0x80) = true /\ ascii_lower c = c.
Proof.
  unfold lower_stable, ascii_lower. intros H.
  apply andb_prop in H as [H1 H2]. split; [exact H1|].
  apply negb_true_iff in H2. rewrite H2. reflexivity.
Qed.

Lemma lower_from_stable (before p t : pystr) :
  forallb lower_stable p = true ->
  lower_from db before (p ++ t) = p ++ lower_from db (rev p ++ before) t.
Proof.
  revert before. induction p as [|c r IH]; intros before H; simpl.
  - reflexivity.
  - simpl in H. apply andb_prop in H as [Hc Hr].
    destruct (lower_stable_fixed c Hc) as [-> ->]. simpl.
    rewrite IH by exact Hr. rewrite <- app_assoc. reflexivity.
Qed.

(** A lower-case ASCII pattern found in a string is found in the
    lower-cased string. *)
Lemma contains_lower (p s : pystr) :
  forallb lower_stable p = true ->
  contains p s = true -> contains p (lower db s) = true.
Proof.
  intros Hp H. apply contains_true in H as [a [b ->]].
  unfold lower. destruct (lower_from_app [] a (p ++ b)) as [x ->].
  rewrite (lower_from_stable _ p b Hp). apply contains_app.
Qed.

End lower_facts.

(** ** The run of [download] *)

(** [download] step by step: which library call ends it and with what, and
    what the delegate receives. *)
Lemma download_run (E : externals) (url : pystr) (audio_only : bool)
    (quality out_dir : pystr) (custom_name : option pystr) (f : fs) :
  download E url audio_only quality out_dir custom_name f =
  match expanduser (os_path_expanduser E) (Path out_dir) with
  | Raise e => (f, [], Raise e)
  | Ok out_path =>
      match mkdir f out_path with
      | (f1, Some (e, q)) =>
          (f1, [],
           Raise (Error (os_error_name e)
                    (os_error_message (unicode_printable E) e (Path_str q))))
      | (f1, None) =>
          match detect_platform E url with
          | Raise e => (f1, [], Raise e)
          | Ok platform =>
              let opts := options_of out_path audio_only quality custom_name in
              let l1 := platform_line platform in
              let l2 := saving_line out_path in
              match stdout_write E l1 with
              | Some e => (f1, [], Raise e)
              | None =>
                  match stdout_write E l2 with
                  | Some e => (f1, [EvPrint l1], Raise e)
                  | None =>
                      let called :=
                        [EvPrint l1; EvPrint l2; EvDownload opts [url] f1] in
                      match ydl_download E opts [url] f1 with
                      | (f2, Some e) => (f2, called, Raise e)
                      | (f2, None) =>
                          match stdout_write E finished_line with
                          | Some e => (f2, called, Raise e)
                          | None =>
                              (f2, called ++ [EvPrint finished_line], Ok tt)
                          end
                      end
                  end
              end
          end
      end
  end.
Proof.
  unfold download, mbind, M_bind, bind, lift, Path_mkdir.
  destruct (expanduser _ _) as [out_path|e]; [|reflexivity].
  destruct (mkdir f out_path) as [f1 [[e q]|]]; [reflexivity|].
  destruct (detect_platform E url) as [platform|e]; [|reflexivity].
  assert (Hopts :
    (if audio_only
     then <["postprocessors" := VPostprocessors
              [ <["preferredquality" := py "192"]>
                  (<["preferredcodec" := py "mp3"]>
                    (<["key" := py "FFmpegExtractAudio"]> ∅)) ]]>
            (<["format" := VStr (py "bestaudio/best")]>
               (base_options (template_of out_path custom_name)))
     else if bool_decide (quality = py "best")
     then <["format" := VStr best_selector]>
            (base_options (template_of out_path custom_name))
     else if bool_decide (quality = py "worst")
     then <["format" := VStr (py "worst")]>
            (base_options (template_of out_path custom_name))
     else <["format" :=
              VStr (py "bestvideo[height<=" ++ rstrip_chars (py "p") quality
                      ++ py "][ext=mp4]+bestaudio[ext=m4a]"
                      ++ py "/best[height<=" ++ rstrip_chars (py "p") quality
                      ++ py "]/best")]>
            (base_options (template_of out_path custom_name)))
    = options_of out_path audio_only quality custom_name).
  { unfold options_of, format_of. destruct audio_only; [reflexivity|].
    repeat case_bool_decide; reflexivity. }
  change (<["no_warnings":=VBool true]> _)
    with (base_options (template_of out_path custom_name)).
  change (py "bestvideo[ext=mp4]+bestaudio[ext=m4a]/best[ext=mp4]/best")
    with best_selector.
  rewrite Hopts. clear Hopts.
  unfold print, YoutubeDL_download, platform_line, saving_line, finished_line.
  cbv zeta.
  destruct (stdout_write E (arrow ++ py " platform: " ++ platform));
    [reflexivity|].
  destruct (stdout_write E (arrow ++ py " saving to: " ++ Path_str out_path ++ nl));
    [reflexivity|].
  destruct (ydl_download E _ [url] f1) as [f2 [e|]]; [reflexivity|].
  destruct (stdout_write E (check_mark ++ py " finished" ++ nl)); reflexivity.
Qed.

(** ** Claims on the helpers *)

(** C1, as the code has it.  [safe_title] replaces every character of the
    set by an underscore, in place, and leaves every other character as it
    is; the result is that string without its leading and trailing white
    space.  So the result holds no character of the set, and neither starts
    nor ends with white space. *)
Theorem safe_title_replaces (title : pystr) :
  (exists lead trail,
      forallb isspace lead = true /\ forallb isspace trail = true /\
      lead ++ safe_title title ++ trail = map replace_illegal title)
  /\ forallb (fun c => negb (illegal c)) (safe_title title) = true
  /\ match safe_title title with c :: _ => isspace c = false | [] => True end
  /\ match rev (safe_title title) with c :: _ => isspace c = false | [] => True end.
Proof.
  split; [|split; [|split]].
  - apply safe_title_padding.
  - apply safe_title_legal.
  - rewrite safe_title_map. apply strip_by_first.
  - rewrite safe_title_map. apply strip_by_last.
Qed.

(** C1 as stated fails: the colon of [a:b] is not removed, it becomes an
    underscore. *)
Lemma safe_title_does_not_delete :
  safe_title (py "a:b") = py "a_b" /\
  safe_title_deleting (py "a:b") = py "ab" /\
  safe_title (py "a:b") <> safe_title_deleting (py "a:b").
Proof. repeat split. vm_compute. discriminate. Qed.

(** C6.  When the lower-cased network location of the URL contains
    [youtube.com], [youtu.be] or [youtube-nocookie.com], and also when the
    network location as written does, [detect_platform] returns
    [youtube]. *)
Theorem detect_youtube (E : externals) (url netloc : pystr)
    (Hparse : urlparse_netloc E url = Ok netloc)
    (Hhost :
       let lowered := lower (unicode_lower E) netloc in
       contains (py "youtube.com") lowered
       || contains (py "youtu.be") lowered
       || contains (py "youtube-nocookie.com") lowered = true
       \/
       contains (py "youtube.com") netloc
       || contains (py "youtu.be") netloc
       || contains (py "youtube-nocookie.com") netloc = true) :
  detect_platform E url = Ok (py "youtube").
Proof.
  assert (Hlow :
    existsb (fun p => contains p (lower (unicode_lower E) netloc)) youtube_hosts
    = true).
  { unfold youtube_hosts. cbn [existsb]. rewrite orb_false_r, orb_assoc.
    destruct Hhost as [H|H]; [exact H|].
    apply orb_prop in H as [H|H]; [apply orb_prop in H as [H|H]|];
      apply (contains_lower (unicode_lower E)) in H; try reflexivity;
      rewrite H.
    - reflexivity.
    - apply orb_true_iff. left. apply orb_true_r.
    - apply orb_true_r. }
  unfold detect_platform. rewrite Hparse. cbv zeta. rewrite Hlow. reflexivity.
Qed.

Lemma detect_youtube_witness :
  urlparse_netloc (Reference.env None) (py "https://www.YouTube.com/watch?v=1")
  = Ok (py "www.YouTube.com")
  /\ detect_platform (Reference.env None) (py "https://www.YouTube.com/watch?v=1")
     = Ok (py "youtube").
Proof.
  split; [reflexivity|].
  apply (detect_youtube (Reference.env None) _ (py "www.YouTube.com")).
  - reflexivity.
  - left. reflexivity.
Defined.

(** C5 as stated fails: a network location that contains [instagram.com]
    and a YouTube name is labelled [youtube], because the YouTube names are
    tried first. *)
Lemma detect_instagram_not_always :
  ~ (forall (E : externals) (url netloc : pystr),
        urlparse_netloc E url = Ok netloc ->
        contains (py "instagram.com") netloc
        || contains (py "instagr.am") netloc = true ->
        detect_platform E url = Ok (py "instagram")).
Proof.
  intros H.
  specialize (H (Reference.env None) (py "https://instagram.com.youtube.com/reel")
                (py "instagram.com.youtube.com") eq_refl eq_refl).
  vm_compute in H. discriminate H.
Qed.

(** C5, as the code has it.  When the network location of the URL (the
    [netloc] of [urlparse]: the host with any user info and port) contains
    [instagram.com] or [instagr.am] and, lower-cased, contains none of the
    YouTube names, [detect_platform] returns [instagram]. *)
Theorem detect_instagram (E : externals) (url netloc : pystr)
    (Hparse : urlparse_netloc E url = Ok netloc)
    (Hhost : contains (py "instagram.com") netloc
             || contains (py "instagr.am") netloc = true)
    (Hnot :
       let lowered := lower (unicode_lower E) netloc in
       contains (py "youtube.com") lowered
       || contains (py "youtu.be") lowered
       || contains (py "youtube-nocookie.com") lowered = false) :
  detect_platform E url = Ok (py "instagram").
Proof.
  unfold detect_platform. rewrite Hparse. cbv zeta.
  unfold youtube_hosts, instagram_hosts. cbn [existsb].
  cbv zeta in Hnot. rewrite orb_false_r, orb_assoc, Hnot.
  apply orb_prop in Hhost as [H|H];
    apply (contains_lower (unicode_lower E)) in H; try reflexivity;
    rewrite H; [reflexivity|].
  rewrite orb_true_r. reflexivity.
Qed.

Lemma detect_instagram_witness :
  urlparse_netloc (Reference.env None) (py "https://www.instagram.com/reel/1/")
  = Ok (py "www.instagram.com")
  /\ detect_platform (Reference.env None) (py "https://www.instagram.com/reel/1/")
     = Ok (py "instagram").
Proof.
  split; [reflexivity|].
  apply (detect_instagram (Reference.env None) _ (py "www.instagram.com"));
    reflexivity.
Defined.

(** The names are looked for in the whole network location, user info and
    port included: here the host is [instagram.com], the user info holds a
    YouTube name, and the label is [youtube]. *)
Lemma detect_platform_reads_userinfo :
  let E := Reference.env None in
  let url := py "https://youtube.com@instagram.com/reel/1" in
  urlparse_netloc E url = Ok (py "youtube.com@instagram.com")
  /\ detect_platform E url = Ok (py "youtube").
Proof. split; reflexivity. Qed.

(** ** What the delegate receives *)

(** Every call of the delegate recorded in a run of [download] was made
    with the dictionary [options_of] of the expanded output directory, for
    the one URL, on the file system left by [mkdir]; the platform was
    computed before. *)
Lemma download_called (E : externals) (url : pystr) (audio_only : bool)
    (quality out_dir : pystr) (custom_name : option pystr) (f : fs)
    (opts : gmap string value) (urls : list pystr) (f0 : fs) :
  In (EvDownload opts urls f0)
     (events (download E url audio_only quality out_dir custom_name f)) ->
  exists out_path platform,
    expanduser (os_path_expanduser E) (Path out_dir) = Ok out_path
    /\ mkdir f out_path = (f0, None)
    /\ detect_platform E url = Ok platform
    /\ opts = options_of out_path audio_only quality custom_name
    /\ urls = [url].
Proof.
  rewrite download_run.
  destruct (expanduser _ _) as [out_path|e]; [|intros []].
  destruct (mkdir f out_path) as [f1 [[e q]|]] eqn:Hmk; [intros []|].
  destruct (detect_platform E url) as [platform|e]; [|intros []].
  cbv zeta.
  destruct (stdout_write E (platform_line platform)); [intros []|].
  destruct (stdout_write E (saving_line out_path)).
  { unfold events. simpl. intros [H|[]]. discriminate H. }
  assert (Hin : forall tail : list event,
            Forall (fun x => x = EvPrint finished_line) tail ->
            In (EvDownload opts urls f0)
               ([EvPrint (platform_line platform);
                 EvPrint (saving_line out_path);
                 EvDownload
                   (options_of out_path audio_only quality custom_name)
                   [url] f1] ++ tail) ->
            opts = options_of out_path audio_only quality custom_name
            /\ urls = [url] /\ f0 = f1).
  { intros tail Htail H. simpl in H.
    destruct H as [H|[H|[H|H]]]; try discriminate H.
    - injection H as <- <- <-. auto.
    - rewrite Forall_forall in Htail. apply list_elem_of_In in H.
      apply Htail in H. discriminate H. }
  assert (Hdone : forall tail : list event,
            Forall (fun x => x = EvPrint finished_line) tail ->
            In (EvDownload opts urls f0)
               ([EvPrint (platform_line platform);
                 EvPrint (saving_line out_path);
                 EvDownload
                   (options_of out_path audio_only quality custom_name)
                   [url] f1] ++ tail) ->
            exists out_path0 platform0,
              Ok out_path = Ok out_path0
              /\ mkdir f out_path0 = (f0, None)
              /\ Ok platform = Ok platform0
              /\ opts = options_of out_path0 audio_only quality custom_name
              /\ urls = [url]).
  { intros tail Htail H. destruct (Hin tail Htail H) as [-> [-> ->]].
    exists out_path, platform. auto. }
  destruct (ydl_download E _ [url] f1) as [f2 [e|]].
  - apply (Hdone []). constructor.
  - destruct (stdout_write E finished_line).
    + apply (Hdone []). constructor.
    + apply (Hdone [EvPrint finished_line]). repeat constructor.
Qed.

(** When the delegate raises, [download] ends with that exception. *)
Lemma download_delegate_raises (E : externals) (url : pystr)
    (audio_only : bool) (quality out_dir : pystr)
    (custom_name : option pystr) (f : fs)
    (opts : gmap string value) (urls : list pystr) (f0 f1 : fs) (e : exn) :
  In (EvDownload opts urls f0)
     (events (download E url audio_only quality out_dir custom_name f)) ->
  ydl_download E opts urls f0 = (f1, Some e) ->
  outcome (download E url audio_only quality out_dir custom_name f) = Raise e.
Proof.
  intros Hin Hraise.
  destruct (download_called _ _ _ _ _ _ _ _ _ _ Hin)
    as [out_path [platform [Hexp [Hmk [Hdet [-> ->]]]]]].
  rewrite download_run, Hexp, Hmk, Hdet in Hin |- *. cbv zeta in Hin |- *.
  destruct (stdout_write E (platform_line platform)); [destruct Hin|].
  destruct (stdout_write E (saving_line out_path)).
  { unfold events in Hin. simpl in Hin. destruct Hin as [H|[]]. discriminate H. }
  rewrite Hraise. reflexivity.
Qed.

(** When the library calls before it succeed, the delegate is called. *)
Lemma download_calls (E : externals) (url : pystr) (audio_only : bool)
    (quality out_dir : pystr) (custom_name : option pystr) (f f0 : fs)
    (out_path : PurePath) (platform : pystr) :
  expanduser (os_path_expanduser E) (Path out_dir) = Ok out_path ->
  mkdir f out_path = (f0, None) ->
  detect_platform E url = Ok platform ->
  stdout_write E (platform_line platform) = None ->
  stdout_write E (saving_line out_path) = None ->
  In (EvDownload (options_of out_path audio_only quality custom_name) [url] f0)
     (events (download E url audio_only quality out_dir custom_name f)).
Proof.
  intros Hexp Hmk Hdet H1 H2.
  rewrite download_run, Hexp, Hmk, Hdet. cbv zeta. rewrite H1, H2.
  destruct (ydl_download E _ [url] f0) as [f2 [e|]].
  - unfold events. simpl. auto.
  - destruct (stdout_write E finished_line); unfold events; simpl; auto.
Qed.

(** ** Claims on the option dictionary *)

Lemma options_of_audio (out_path : PurePath) (quality quality' : pystr)
    (custom_name : option pystr) :
  options_of out_path true quality custom_name
  = options_of out_path true quality' custom_name.
Proof. reflexivity. Qed.

Lemma options_of_format_audio (out_path : PurePath) (quality : pystr)
    (custom_name : option pystr) :
  options_of out_path true quality custom_name !! "format"
  = Some (VStr (py "bestaudio/best")).
Proof. unfold options_of, base_options. by simplify_map_eq. Qed.

Lemma options_of_postprocessors_audio (out_path : PurePath) (quality : pystr)
    (custom_name : option pystr) :
  options_of out_path true quality custom_name !! "postprocessors"
  = Some (VPostprocessors [extract_audio_mp3_192]).
Proof. unfold options_of, base_options. by simplify_map_eq. Qed.

Lemma options_of_format_video (out_path : PurePath) (quality : pystr)
    (custom_name : option pystr) :
  options_of out_path false quality custom_name !! "format"
  = Some (VStr (format_of quality)).
Proof. unfold options_of, base_options. by simplify_map_eq. Qed.

Lemma options_of_postprocessors_video (out_path : PurePath) (quality : pystr)
    (custom_name : option pystr) :
  options_of out_path false quality custom_name !! "postprocessors" = None.
Proof. unfold options_of, base_options. by simplify_map_eq. Qed.

Lemma options_of_outtmpl (out_path : PurePath) (audio_only : bool)
    (quality : pystr) (custom_name : option pystr) :
  options_of out_path audio_only quality custom_name !! "outtmpl"
  = Some (VStr (template_of out_path custom_name)).
Proof.
  unfold options_of, base_options. destruct audio_only; by simplify_map_eq.
Qed.

(** C2.  With the audio-only flag set, whatever the quality token, the
    dictionary handed to the delegate selects [bestaudio/best] (the best
    audio stream, else the best stream) and asks for one post-processor,
    [FFmpegExtractAudio] to the codec mp3 at quality 192; and the whole run
    is the same for every quality token. *)
Theorem audio_only_options (E : externals) (url quality out_dir : pystr)
    (custom_name : option pystr) (f : fs)
    (opts : gmap string value) (urls : list pystr) (f0 : fs)
    (Hcall : In (EvDownload opts urls f0)
               (events (download E url true quality out_dir custom_name f))) :
  opts !! "format" = Some (VStr (py "bestaudio/best"))
  /\ opts !! "postprocessors"
     = Some (VPostprocessors
               [ {[ "key" := py "FFmpegExtractAudio";
                    "preferredcodec" := py "mp3";
                    "preferredquality" := py "192" ]} ])
  /\ tiers (py "bestaudio/best") = [py "bestaudio"; py "best"]
  /\ forall quality',
       download E url true quality' out_dir custom_name f
       = download E url true quality out_dir custom_name f.
Proof.
  destruct (download_called _ _ _ _ _ _ _ _ _ _ Hcall)
    as [out_path [platform [_ [_ [_ [-> _]]]]]].
  split; [apply options_of_format_audio|].
  split; [rewrite options_of_postprocessors_audio; reflexivity|].
  split; [reflexivity|].
  intros quality'. rewrite !download_run.
  destruct (expanduser _ _) as [p|e]; [|reflexivity].
  rewrite (options_of_audio p quality' quality). reflexivity.
Qed.

Lemma audio_only_options_witness :
  let E := Reference.env None in
  let run := download E (py "https://youtu.be/x") true (py "480p")
               (py "downloads") None ∅ in
  exists opts urls f0,
    In (EvDownload opts urls f0) (events run)
    /\ opts !! "format" = Some (VStr (py "bestaudio/best")).
Proof.
  intros E run.
  assert (Hcall :
    In (EvDownload (options_of (Path (py "downloads")) true (py "480p") None)
          [py "https://youtu.be/x"]
          (mkdir ∅ (Path (py "downloads"))).1)
       (events run)).
  { apply (download_calls E _ _ _ _ _ _ _ _ (py "youtube")); reflexivity. }
  subst run. eexists _, _, _. split; [exact Hcall|].
  exact (proj1 (audio_only_options _ _ _ _ _ _ _ _ _ Hcall)).
Defined.

(** C3.  Without the audio-only flag and with the quality token [720p], the
    trailing [p] is stripped to give the height 720, and the format
    selector handed to the delegate has exactly three tiers, in this order:
    the best mp4 video of height at most 720 with the best m4a audio, the
    best stream of height at most 720, the best stream.  No post-processor
    is requested. *)
Theorem quality_720p_selector (E : externals) (url out_dir : pystr)
    (custom_name : option pystr) (f : fs)
    (opts : gmap string value) (urls : list pystr) (f0 : fs)
    (Hcall : In (EvDownload opts urls f0)
               (events (download E url false (py "720p") out_dir
                          custom_name f))) :
  rstrip_chars (py "p") (py "720p") = py "720"
  /\ opts !! "format"
     = Some (VStr (py "bestvideo[height<=720][ext=mp4]+bestaudio[ext=m4a]/best[height<=720]/best"))
  /\ tiers (py "bestvideo[height<=720][ext=mp4]+bestaudio[ext=m4a]/best[height<=720]/best")
     = [ py "bestvideo[height<=720][ext=mp4]+bestaudio[ext=m4a]";
         py "best[height<=720]";
         py "best" ]
  /\ opts !! "postprocessors" = None.
Proof.
  destruct (download_called _ _ _ _ _ _ _ _ _ _ Hcall)
    as [out_path [platform [_ [_ [_ [-> _]]]]]].
  split; [reflexivity|].
  split; [rewrite options_of_format_video; reflexivity|].
  split; [reflexivity|].
  apply options_of_postprocessors_video.
Qed.

Lemma quality_720p_selector_witness :
  let E := Reference.env None in
  let run := download E (py "https://youtu.be/x") false (py "720p")
               (py "downloads") None ∅ in
  exists opts urls f0,
    In (EvDownload opts urls f0) (events run)
    /\ opts !! "format" = Some (VStr selector_720).
Proof.
  intros E run.
  assert (Hcall :
    In (EvDownload (options_of (Path (py "downloads")) false (py "720p") None)
          [py "https://youtu.be/x"]
          (mkdir ∅ (Path (py "downloads"))).1)
       (events run)).
  { apply (download_calls E _ _ _ _ _ _ _ _ (py "youtube")); reflexivity. }
  subst run. eexists _, _, _. split; [exact Hcall|].
  exact (proj1 (proj2 (quality_720p_selector _ _ _ _ _ _ _ _ Hcall))).
Defined.

(** C8.  For two URLs and the same audio-only flag, quality token, output
    directory and custom name, the dictionaries handed to the delegate are
    equal, and so are the file systems on which it is called: the URL, and
    with it the platform label, reaches the delegate only as the URL to
    download. *)
Theorem options_independent_of_url (E : externals) (url1 url2 : pystr)
    (audio_only : bool) (quality out_dir : pystr)
    (custom_name : option pystr) (f : fs)
    (opts1 opts2 : gmap string value) (urls1 urls2 : list pystr)
    (g1 g2 : fs)
    (Hcall1 : In (EvDownload opts1 urls1 g1)
                (events (download E url1 audio_only quality out_dir
                           custom_name f)))
    (Hcall2 : In (EvDownload opts2 urls2 g2)
                (events (download E url2 audio_only quality out_dir
                           custom_name f))) :
  opts1 = opts2 /\ g1 = g2 /\ urls1 = [url1] /\ urls2 = [url2].
Proof.
  destruct (download_called _ _ _ _ _ _ _ _ _ _ Hcall1)
    as [p1 [l1 [Hexp1 [Hmk1 [_ [-> ->]]]]]].
  destruct (download_called _ _ _ _ _ _ _ _ _ _ Hcall2)
    as [p2 [l2 [Hexp2 [Hmk2 [_ [-> ->]]]]]].
  rewrite Hexp1 in Hexp2. injection Hexp2 as <-.
  rewrite Hmk1 in Hmk2. injection Hmk2 as <-. auto.
Qed.

Lemma options_independent_of_url_witness :
  let E := Reference.env None in
  let yt := py "https://youtu.be/x" in
  let ig := py "https://www.instagram.com/reel/1/" in
  detect_platform E yt = Ok (py "youtube")
  /\ detect_platform E ig = Ok (py "instagram")
  /\ exists opts1 opts2 g1 g2,
       In (EvDownload opts1 [yt] g1)
          (events (download E yt false (py "best") (py "~/videos")
                     (Some (py "clip")) ∅))
       /\ In (EvDownload opts2 [ig] g2)
             (events (download E ig false (py "best") (py "~/videos")
                        (Some (py "clip")) ∅))
       /\ opts1 = opts2.
Proof.
  intros E yt ig. split; [reflexivity|]. split; [reflexivity|].
  assert (H1 :
    In (EvDownload
          (options_of (Path (py "/home/user/videos")) false (py "best")
             (Some (py "clip")))
          [yt] (mkdir ∅ (Path (py "/home/user/videos"))).1)
       (events (download E yt false (py "best") (py "~/videos")
                  (Some (py "clip")) ∅))).
  { apply (download_calls E _ _ _ _ _ _ _ _ (py "youtube")); reflexivity. }
  assert (H2 :
    In (EvDownload
          (options_of (Path (py "/home/user/videos")) false (py "best")
             (Some (py "clip")))
          [ig] (mkdir ∅ (Path (py "/home/user/videos"))).1)
       (events (download E ig false (py "best") (py "~/videos")
                  (Some (py "clip")) ∅))).
  { apply (download_calls E _ _ _ _ _ _ _ _ (py "instagram")); reflexivity. }
  eexists _, _, _, _. split; [exact H1|]. split; [exact H2|].
  exact (proj1 (options_independent_of_url _ _ _ _ _ _ _ _ _ _ _ _ _ _ H1 H2)).
Defined.

(** ** Paths *)

Lemma split_char_no_sep (s : pystr) :
  forallb (fun c => negb (c =? sep)) s = true -> split_char sep s = [s].
Proof.
  induction s as [|c r IH]; simpl; [reflexivity|].
  intros H. apply andb_prop in H as [Hc Hr].
  apply negb_true_iff in Hc. rewrite Hc, (IH Hr). reflexivity.
Qed.

(** A string without slash, not empty and not a dot, is one component. *)
Lemma Path_component (s : pystr) :
  s <> [] -> forallb (fun c => negb (c =? sep)) s = true -> s <> py "." ->
  Path s = mkPath [] [s].
Proof.
  intros Hne Hsep Hdot. unfold Path, splitroot.
  destruct s as [|c r]; [contradiction|].
  pose proof Hsep as Hsep'. simpl in Hsep'.
  apply andb_prop in Hsep' as [Hc _]. apply negb_true_iff in Hc. rewrite Hc.
  rewrite (split_char_no_sep _ Hsep).
  rewrite filter_cons_True.
  - reflexivity.
  - unfold is_component. simpl truthy. rewrite bool_decide_eq_false_2 by exact Hdot.
    reflexivity.
Qed.

Lemma legal_no_sep (x : pystr) :
  forallb (fun c => negb (illegal c)) x = true ->
  forallb (fun c => negb (c =? sep)) x = true.
Proof.
  intros H. apply forallb_forall. intros c Hc.
  apply (proj1 (forallb_forall _ _) H) in Hc.
  destruct (c =? sep) eqn:E; [|reflexivity].
  apply N.eqb_eq in E. subst c. discriminate Hc.
Qed.

(** Joining a sanitized name with the extension placeholder under a path
    adds exactly one component. *)
Lemma truediv_file (p : PurePath) (x : pystr) :
  forallb (fun c => negb (illegal c)) x = true ->
  truediv p (x ++ py ".%(ext)s")
  = mkPath (root p) (parts p ++ [x ++ py ".%(ext)s"]).
Proof.
  intros Hx. unfold truediv. rewrite Path_component.
  - reflexivity.
  - intros H. apply app_eq_nil in H as [_ H]. discriminate H.
  - rewrite forallb_app, (legal_no_sep x Hx). reflexivity.
  - intros H. apply (f_equal (@length N)) in H.
    rewrite length_app in H. simpl in H. lia.
Qed.

Lemma join_snoc (ps : list pystr) (a : pystr) :
  join [sep] (ps ++ [a]) = concat (map (fun x => x ++ [sep]) ps) ++ a.
Proof.
  induction ps as [|x r IH]; [reflexivity|].
  change ((x :: r) ++ [a]) with (x :: (r ++ [a])).
  destruct (r ++ [a]) as [|y l] eqn:E.
  - apply app_eq_nil in E as [_ E]. discriminate E.
  - simpl join. simpl in IH. rewrite IH. simpl. rewrite <- !app_assoc.
    reflexivity.
Qed.

Lemma Path_str_snoc (r : pystr) (ps : list pystr) (a : pystr) :
  Path_str (mkPath r (ps ++ [a])) = dir_prefix (mkPath r ps) ++ a.
Proof.
  unfold Path_str, dir_prefix. simpl root. simpl parts.
  rewrite join_snoc, <- app_assoc.
  destruct r as [|c r']; [|reflexivity]. simpl truthy. cbv iota.
  destruct (ps ++ [a]) as [|y l] eqn:E; [|reflexivity].
  apply app_eq_nil in E as [_ E]. discriminate E.
Qed.

(** The template of [download], as text: the directory prefix, the
    sanitized name, the extension placeholder. *)
Lemma template_of_text (out_path : PurePath) (custom_name : option pystr) :
  template_of out_path custom_name
  = dir_prefix out_path
      ++ safe_title (or_else custom_name (py "%(title)s")) ++ py ".%(ext)s".
Proof.
  unfold template_of. rewrite safe_title_strip.
  rewrite truediv_file by apply safe_title_legal.
  rewrite Path_str_snoc. destruct out_path. reflexivity.
Qed.

Lemma template_as_described_text (out_path : PurePath)
    (custom_name : option pystr) :
  template_as_described out_path custom_name
  = dir_prefix out_path
      ++ safe_title (match custom_name with
                     | Some n => n
                     | None => py "%(title)s"
                     end) ++ py ".%(ext)s".
Proof.
  unfold template_as_described.
  rewrite truediv_file by apply safe_title_legal.
  rewrite Path_str_snoc. destruct out_path. reflexivity.
Qed.

(** [mkdir(parents=True, exist_ok=True)] on a relative path of one
    component. *)
Lemma mkdir_single (f : fs) (name : pystr) :
  name <> py ".." ->
  mkdir f (mkPath [] [name])
  = match f !! ([], [name]) with
    | None => (<[([], [name]) := Dir]> f, None)
    | Some Dir => (f, None)
    | Some File => (f, Some (FileExistsError, mkPath [] [name]))
    end.
Proof.
  intros Hname.
  assert (Hd : is_dotdot name = false)
    by (apply bool_decide_eq_false_2; exact Hname).
  unfold mkdir, mkdir_parents, os_mkdir, is_dir, key, parent.
  cbn [root parts rev app removelast walk List.last]. rewrite Hd.
  destruct (f !! ([], [name])) as [[|]|] eqn:Hf; cbn [walk app];
    rewrite ?Hd, ?Hf; reflexivity.
Qed.

Lemma mkdir_single_ok (f : fs) (name : pystr) :
  name <> py ".." ->
  f !! key (mkPath [] [name]) <> Some File ->
  mkdir f (mkPath [] [name])
  = (match f !! key (mkPath [] [name]) with
     | None => <[key (mkPath [] [name]) := Dir]> f
     | Some _ => f
     end, None).
Proof.
  intros Hname. rewrite (mkdir_single f name Hname). unfold key. simpl.
  destruct (f !! ([], [name])) as [[|]|]; try reflexivity. contradiction.
Qed.

Lemma is_dir_single (f : fs) (name : pystr) :
  name <> py ".." ->
  f !! key (mkPath [] [name]) <> Some File ->
  is_dir (match f !! key (mkPath [] [name]) with
          | None => <[key (mkPath [] [name]) := Dir]> f
          | Some _ => f
          end) (mkPath [] [name]) = true.
Proof.
  intros Hname.
  assert (Hd : is_dotdot name = false)
    by (apply bool_decide_eq_false_2; exact Hname).
  unfold is_dir, key. cbn [root parts walk app]. rewrite Hd.
  destruct (f !! ([], [name])) as [[|]|] eqn:Hf; intros H.
  - rewrite Hf. reflexivity.
  - contradiction.
  - rewrite lookup_insert_eq. reflexivity.
Qed.

Lemma detect_platform_total (E : externals) (url netloc : pystr) :
  urlparse_netloc E url = Ok netloc ->
  exists platform, detect_platform E url = Ok platform.
Proof.
  intros H. unfold detect_platform. rewrite H. cbv zeta.
  destruct (existsb _ youtube_hosts); [eauto|].
  destruct (existsb _ instagram_hosts); eauto.
Qed.

(** ** Claims on the output template *)

(** C7 as stated fails: an empty custom name is given, and the template is
    built from the title placeholder, not from the empty name. *)
Lemma template_not_from_empty_name :
  ~ (forall (E : externals) (url : pystr) (audio_only : bool)
       (quality out_dir : pystr) (custom_name : option pystr) (f : fs)
       (opts : gmap string value) (urls : list pystr) (f0 : fs)
       (out_path : PurePath),
        expanduser (os_path_expanduser E) (Path out_dir) = Ok out_path ->
        In (EvDownload opts urls f0)
           (events (download E url audio_only quality out_dir custom_name f)) ->
        opts !! "outtmpl"
        = Some (VStr (template_as_described out_path custom_name))).
Proof.
  intros H.
  specialize (H (Reference.env None) (py "https://youtu.be/x") false
                (py "best") (py "downloads") (Some []) ∅
                (options_of (Path (py "downloads")) false (py "best") (Some []))
                [py "https://youtu.be/x"]
                (mkdir ∅ (Path (py "downloads"))).1
                (Path (py "downloads")) eq_refl).
  assert (Hcall :
    In (EvDownload
          (options_of (Path (py "downloads")) false (py "best") (Some []))
          [py "https://youtu.be/x"] (mkdir ∅ (Path (py "downloads"))).1)
       (events (download (Reference.env None) (py "https://youtu.be/x") false
                  (py "best") (py "downloads") (Some []) ∅))).
  { apply (download_calls _ _ _ _ _ _ _ _ _ (py "youtube")); reflexivity. }
  specialize (H Hcall). rewrite options_of_outtmpl in H.
  vm_compute in H. discriminate H.
Qed.

(** C7, as the code has it.  For every output directory and every custom
    name that is not the empty string, the template handed to the delegate
    is the sanitized custom name if one was given, else the title
    placeholder, with the extension placeholder appended, joined under the
    expanded output directory; no character of the sanitized name is one of
    the set, each having been replaced by an underscore. *)
Theorem template_from_name (E : externals) (url : pystr) (audio_only : bool)
    (quality out_dir : pystr) (custom_name : option pystr) (f : fs)
    (opts : gmap string value) (urls : list pystr) (f0 : fs)
    (out_path : PurePath)
    (Hname : custom_name <> Some [])
    (Hexp : expanduser (os_path_expanduser E) (Path out_dir) = Ok out_path)
    (Hcall : In (EvDownload opts urls f0)
               (events (download E url audio_only quality out_dir
                          custom_name f))) :
  let name := match custom_name with
              | Some n => n
              | None => py "%(title)s"
              end in
  opts !! "outtmpl" = Some (VStr (template_as_described out_path custom_name))
  /\ template_as_described out_path custom_name
     = dir_prefix out_path ++ safe_title name ++ py ".%(ext)s"
  /\ (exists lead trail,
         forallb isspace lead = true /\ forallb isspace trail = true /\
         lead ++ safe_title name ++ trail = map replace_illegal name)
  /\ safe_title (py "%(title)s") = py "%(title)s".
Proof.
  intros name.
  destruct (download_called _ _ _ _ _ _ _ _ _ _ Hcall)
    as [p [platform [Hexp' [_ [_ [-> _]]]]]].
  rewrite Hexp in Hexp'. injection Hexp' as <-.
  split; [|split; [|split]].
  - rewrite options_of_outtmpl, template_of_text, template_as_described_text.
    do 3 f_equal. destruct custom_name as [[|c r]|]; try reflexivity.
    contradiction.
  - apply template_as_described_text.
  - apply safe_title_padding.
  - reflexivity.
Qed.

Lemma template_from_name_witness :
  let E := Reference.env None in
  exists opts urls f0,
    In (EvDownload opts urls f0)
       (events (download E (py "https://youtu.be/x") false (py "best")
                  (py "~/videos") (Some (py " what? a/b ")) ∅))
    /\ opts !! "outtmpl"
       = Some (VStr (py "/home/user/videos/what_ a_b.%(ext)s")).
Proof.
  intros E.
  assert (Hcall :
    In (EvDownload
          (options_of (Path (py "/home/user/videos")) false (py "best")
             (Some (py " what? a/b ")))
          [py "https://youtu.be/x"]
          (mkdir ∅ (Path (py "/home/user/videos"))).1)
       (events (download E (py "https://youtu.be/x") false (py "best")
                  (py "~/videos") (Some (py " what? a/b ")) ∅))).
  { apply (download_calls E _ _ _ _ _ _ _ _ (py "youtube")); reflexivity. }
  assert (Hname : Some (py " what? a/b ") <> Some []) by discriminate.
  eexists _, _, _. split; [exact Hcall|].
  rewrite (proj1 (template_from_name E (py "https://youtu.be/x") false
                    (py "best") (py "~/videos") (Some (py " what? a/b ")) ∅
                    _ _ _ (Path (py "/home/user/videos"))
                    Hname eq_refl Hcall)).
  reflexivity.
Defined.

(** C10.  With the empty string as custom name, [download] runs exactly as
    with no custom name; the template handed to the delegate is the title
    placeholder with the extension placeholder under the output directory,
    and not the extension placeholder alone. *)
Theorem empty_name_is_no_name (E : externals) (url : pystr)
    (audio_only : bool) (quality out_dir : pystr) (f : fs)
    (opts : gmap string value) (urls : list pystr) (f0 : fs)
    (out_path : PurePath)
    (Hexp : expanduser (os_path_expanduser E) (Path out_dir) = Ok out_path)
    (Hcall : In (EvDownload opts urls f0)
               (events (download E url audio_only quality out_dir
                          (Some []) f))) :
  download E url audio_only quality out_dir (Some []) f
  = download E url audio_only quality out_dir None f
  /\ opts !! "outtmpl"
     = Some (VStr (Path_str (truediv out_path (py "%(title)s.%(ext)s"))))
  /\ opts !! "outtmpl"
     = Some (VStr (dir_prefix out_path ++ py "%(title)s.%(ext)s"))
  /\ opts !! "outtmpl"
     <> Some (VStr (dir_prefix out_path ++ py ".%(ext)s")).
Proof.
  destruct (download_called _ _ _ _ _ _ _ _ _ _ Hcall)
    as [p [platform [Hexp' [_ [_ [-> _]]]]]].
  rewrite Hexp in Hexp'. injection Hexp' as <-.
  rewrite options_of_outtmpl.
  split; [reflexivity|]. split; [reflexivity|].
  rewrite template_of_text. split; [reflexivity|].
  intros H. injection H as H. apply app_inv_head in H. discriminate H.
Qed.

Lemma empty_name_is_no_name_witness :
  let E := Reference.env None in
  exists opts urls f0,
    In (EvDownload opts urls f0)
       (events (download E (py "https://youtu.be/x") false (py "best")
                  (py "downloads") (Some []) ∅))
    /\ opts !! "outtmpl" = Some (VStr (py "downloads/%(title)s.%(ext)s")).
Proof.
  intros E.
  assert (Hcall :
    In (EvDownload
          (options_of (Path (py "downloads")) false (py "best") (Some []))
          [py "https://youtu.be/x"] (mkdir ∅ (Path (py "downloads"))).1)
       (events (download E (py "https://youtu.be/x") false (py "best")
                  (py "downloads") (Some []) ∅))).
  { apply (download_calls E _ _ _ _ _ _ _ _ (py "youtube")); reflexivity. }
  eexists _, _, _. split; [exact Hcall|].
  rewrite (proj1 (proj2 (proj2
             (empty_name_is_no_name E (py "https://youtu.be/x") false
                (py "best") (py "downloads") ∅ _ _ _
                (Path (py "downloads")) eq_refl Hcall)))).
  reflexivity.
Defined.

(** ** Claims on the whole run *)

(** C4.  The run with the defaults (no audio-only flag, quality [best],
    output directory [downloads], no custom name), when the URL parses,
    [stdout] can be written and [downloads] is not a file: the directory
    [downloads] is created if it is absent, and it exists on the file
    system on which the delegate is called; the delegate is called once,
    for the URL, with the three-tier selector (an mp4 video with an m4a
    audio, else the best mp4, else the best) and the template
    [downloads/%(title)s.%(ext)s]; the run ends as the delegate ends. *)
Theorem default_run (E : externals) (url netloc : pystr) (f : fs)
    (Hparse : urlparse_netloc E url = Ok netloc)
    (Hout : forall s, stdout_write E s = None)
    (Hfile : f !! key (Path (py "downloads")) <> Some File) :
  let downloads := Path (py "downloads") in
  let f0 := match f !! key downloads with
            | None => <[key downloads := Dir]> f
            | Some _ => f
            end in
  exists platform opts,
    detect_platform E url = Ok platform
    /\ is_dir f0 downloads = true
    /\ opts !! "format"
       = Some (VStr (py "bestvideo[ext=mp4]+bestaudio[ext=m4a]/best[ext=mp4]/best"))
    /\ tiers (py "bestvideo[ext=mp4]+bestaudio[ext=m4a]/best[ext=mp4]/best")
       = [py "bestvideo[ext=mp4]+bestaudio[ext=m4a]"; py "best[ext=mp4]";
          py "best"]
    /\ opts !! "outtmpl" = Some (VStr (py "downloads/%(title)s.%(ext)s"))
    /\ download E url false (py "best") (py "downloads") None f
       = let '(f1, r) := ydl_download E opts [url] f0 in
         (f1,
          [EvPrint (platform_line platform); EvPrint (saving_line downloads);
           EvDownload opts [url] f0]
            ++ match r with None => [EvPrint finished_line] | Some _ => [] end,
          match r with None => Ok tt | Some e => Raise e end).
Proof.
  intros downloads f0.
  destruct (detect_platform_total E url netloc Hparse) as [platform Hdet].
  exists platform, (options_of downloads false (py "best") None).
  split; [exact Hdet|].
  assert (Hname : py "downloads" <> py "..") by discriminate.
  assert (Hmk : mkdir f downloads = (f0, None))
    by exact (mkdir_single_ok f (py "downloads") Hname Hfile).
  split; [exact (is_dir_single f (py "downloads") Hname Hfile)|].
  split; [rewrite options_of_format_video; reflexivity|].
  split; [reflexivity|].
  split; [rewrite options_of_outtmpl; reflexivity|].
  rewrite download_run.
  change (expanduser (os_path_expanduser E) (Path (py "downloads")))
    with (Ok downloads).
  cbv beta iota. rewrite Hmk, Hdet. cbv zeta. rewrite !Hout.
  destruct (ydl_download E _ [url] f0) as [f1 [e|]]; reflexivity.
Qed.

Lemma default_run_witness :
  let E := Reference.env None in
  let url := py "https://www.youtube.com/watch?v=abc" in
  urlparse_netloc E url = Ok (py "www.youtube.com")
  /\ (∅ : fs) !! key (Path (py "downloads")) = None
  /\ exists opts,
       opts !! "format" = Some (VStr best_selector)
       /\ download E url false (py "best") (py "downloads") None ∅
          = (<[key (Path (py "downloads")) := Dir]> ∅,
             [EvPrint (platform_line (py "youtube"));
              EvPrint (arrow ++ py " saving to: downloads" ++ nl);
              EvDownload opts [url] (<[key (Path (py "downloads")) := Dir]> ∅);
              EvPrint finished_line],
             Ok tt).
Proof.
  intros E url. split; [reflexivity|]. split; [reflexivity|].
  assert (Hfile : (∅ : fs) !! key (Path (py "downloads")) <> Some File)
    by discriminate.
  destruct (default_run E url (py "www.youtube.com") ∅ eq_refl
              (fun _ => eq_refl) Hfile)
    as [platform [opts [Hdet [_ [Hfmt [_ [_ Hrun]]]]]]].
  exists opts. split; [exact Hfmt|].
  rewrite Hrun.
  assert (Hp : platform = py "youtube").
  { assert (H : detect_platform E url = Ok (py "youtube")) by reflexivity.
    rewrite H in Hdet. injection Hdet as <-. reflexivity. }
  subst platform. reflexivity.
Defined.

(** [main] changes the outcome of [download] only when it is a
    [KeyboardInterrupt], wherever in [download] it was raised. *)
Lemma main_outcome (E : externals) (args : Namespace) (f : fs) :
  outcome (main E args f)
  = match outcome (download E (args_url args) (args_audio_only args)
                     (args_quality args) (args_output_dir args)
                     (args_name args) f) with
    | Raise KeyboardInterrupt => Raise (SystemExit (ExitStr abort_message))
    | other => other
    end.
Proof.
  unfold main, try_except_KeyboardInterrupt, sys_exit, raise.
  destruct (download E (args_url args) (args_audio_only args)
              (args_quality args) (args_output_dir args) (args_name args) f)
    as [[f1 ev] [[]|[| |]]]; reflexivity.
Qed.

(** [main] never ends with an uncaught [KeyboardInterrupt]. *)
Lemma main_not_interrupted (E : externals) (args : Namespace) (f : fs) :
  outcome (main E args f) <> Raise KeyboardInterrupt.
Proof.
  rewrite main_outcome.
  destruct (outcome _) as [[]|[| |]]; discriminate.
Qed.

(** C9 as stated fails: an exception of the delegate other than
    [KeyboardInterrupt] propagates, but the status is not always non-zero;
    when the delegate raises [SystemExit(0)], [main] does not catch it and
    the interpreter exits with status 0. *)
Lemma propagated_exit_request_has_status_zero :
  ~ (forall (E : externals) (args : Namespace) (f : fs)
       (opts : gmap string value) (urls : list pystr) (f0 f1 : fs) (e : exn),
        In (EvDownload opts urls f0)
           (events (download E (args_url args) (args_audio_only args)
                      (args_quality args) (args_output_dir args)
                      (args_name args) f)) ->
        ydl_download E opts urls f0 = (f1, Some e) ->
        e <> KeyboardInterrupt ->
        outcome (main E args f) = Raise e
        /\ (interpreter_exit (outcome (main E args f))).2 <> 0%Z).
Proof.
  intros H.
  assert (Hcall :
    In (EvDownload (options_of (Path (py "downloads")) false (py "best") None)
          [py "https://youtu.be/x"] (mkdir ∅ (Path (py "downloads"))).1)
       (events (download (Reference.env (Some (SystemExit (ExitInt 0))))
                  (py "https://youtu.be/x") false (py "best")
                  (py "downloads") None ∅))).
  { apply (download_calls _ _ _ _ _ _ _ _ _ (py "youtube")); reflexivity. }
  destruct (H (Reference.env (Some (SystemExit (ExitInt 0))))
              (default_args (py "https://youtu.be/x")) ∅ _ _ _
              (mkdir ∅ (Path (py "downloads"))).1 (SystemExit (ExitInt 0))
              Hcall eq_refl ltac:(discriminate)) as [_ Hstatus].
  apply Hstatus. reflexivity.
Qed.

(** C9, as the code has it.  When the delegate raises during [download]: a
    [KeyboardInterrupt] is caught by [main], which exits with the abort
    message on [stderr] and status 1; every other exception is not caught
    and reaches the process boundary as it was raised.  For an error the
    interpreter prints its traceback and the status is 1; for a
    [SystemExit] the status is the one it asks for.  So the status is
    non-zero, except exactly when the exception is a [SystemExit] whose
    code is [None] or an integer of status 0.  [main] adds no event to
    those of [download]. *)
Theorem interrupt_caught_others_propagate (E : externals) (args : Namespace)
    (f : fs) (opts : gmap string value) (urls : list pystr) (f0 f1 : fs)
    (e : exn)
    (Hcall : In (EvDownload opts urls f0)
               (events (download E (args_url args) (args_audio_only args)
                          (args_quality args) (args_output_dir args)
                          (args_name args) f)))
    (Hraise : ydl_download E opts urls f0 = (f1, Some e)) :
  let run := main E args f in
  (e = KeyboardInterrupt ->
     outcome run = Raise (SystemExit (ExitStr abort_message))
     /\ interpreter_exit (outcome run) = (Message abort_message, 1%Z))
  /\ (e <> KeyboardInterrupt -> outcome run = Raise e)
  /\ (forall cls msg, e = Error cls msg ->
        interpreter_exit (outcome run) = (Traceback cls msg, 1%Z))
  /\ (forall a, e = SystemExit a ->
        (interpreter_exit (outcome run)).2
        = match a with
          | ExitNone => 0%Z
          | ExitInt n => exit_status_of_int n
          | ExitStr _ => 1%Z
          end)
  /\ ((interpreter_exit (outcome run)).2 = 0%Z
      <-> e = SystemExit ExitNone
          \/ exists n, e = SystemExit (ExitInt n)
                       /\ exit_status_of_int n = 0%Z)
  /\ events run
     = events (download E (args_url args) (args_audio_only args)
                 (args_quality args) (args_output_dir args)
                 (args_name args) f).
Proof.
  intros run.
  pose proof (download_delegate_raises _ _ _ _ _ _ _ _ _ _ _ _ Hcall Hraise)
    as Hout.
  subst run. unfold main, try_except_KeyboardInterrupt, sys_exit, raise.
  destruct (download E (args_url args) (args_audio_only args)
              (args_quality args) (args_output_dir args) (args_name args) f)
    as [[f2 ev] r].
  unfold outcome in Hout. simpl in Hout. subst r.
  split; [|split; [|split; [|split; [|split]]]].
  - intros ->. split; reflexivity.
  - intros Hne. destruct e; [contradiction|reflexivity|reflexivity].
  - intros cls msg ->. reflexivity.
  - intros a ->. destruct a; reflexivity.
  - destruct e as [|[|n|s]|cls msg]; unfold outcome; simpl; split.
    + discriminate.
    + intros [H|[n [H _]]]; discriminate H.
    + auto.
    + auto.
    + intros H. right. exists n. auto.
    + intros [H|[m [H Hm]]]; [discriminate H|]. injection H as ->. exact Hm.
    + discriminate.
    + intros [H|[n [H _]]]; discriminate H.
    + discriminate.
    + intros [H|[n [H _]]]; discriminate H.
  - destruct e; unfold events; simpl; [apply app_nil_r|reflexivity|reflexivity].
Qed.

Lemma interrupt_caught_others_propagate_witness :
  let args := default_args (py "https://youtu.be/x") in
  let unavailable := Error "DownloadError" (py "ERROR: Video unavailable") in
  (interpreter_exit (outcome (main (Reference.env (Some KeyboardInterrupt))
                                args ∅))
   = (Message abort_message, 1%Z))
  /\ outcome (main (Reference.env (Some unavailable)) args ∅)
     = Raise unavailable
  /\ interpreter_exit (outcome (main (Reference.env (Some unavailable)) args ∅))
     = (Traceback "DownloadError" (py "ERROR: Video unavailable"), 1%Z)
  /\ (interpreter_exit
        (outcome (main (Reference.env (Some (SystemExit (ExitInt 256))))
                    args ∅))).2 = 0%Z.
Proof.
  intros args unavailable.
  assert (Hcall : forall d,
    In (EvDownload (options_of (Path (py "downloads")) false (py "best") None)
          [py "https://youtu.be/x"] (mkdir ∅ (Path (py "downloads"))).1)
       (events (download (Reference.env d) (args_url args)
                  (args_audio_only args) (args_quality args)
                  (args_output_dir args) (args_name args) ∅))).
  { intros d.
    apply (download_calls (Reference.env d) _ _ _ _ _ _ _ _ (py "youtube"));
      reflexivity. }
  pose proof (interrupt_caught_others_propagate
                (Reference.env (Some KeyboardInterrupt)) args ∅ _ _ _
                (mkdir ∅ (Path (py "downloads"))).1 KeyboardInterrupt
                (Hcall _) eq_refl) as [Hint _].
  pose proof (interrupt_caught_others_propagate
                (Reference.env (Some unavailable)) args ∅ _ _ _
                (mkdir ∅ (Path (py "downloads"))).1 unavailable
                (Hcall _) eq_refl) as [_ [Hprop [Herr _]]].
  pose proof (interrupt_caught_others_propagate
                (Reference.env (Some (SystemExit (ExitInt 256)))) args ∅ _ _ _
                (mkdir ∅ (Path (py "downloads"))).1
                (SystemExit (ExitInt 256))
                (Hcall _) eq_refl) as [_ [_ [_ [_ [Hzero _]]]]].
  split; [exact (proj2 (Hint eq_refl))|].
  split; [apply Hprop; discriminate|].
  split; [exact (Herr _ _ eq_refl)|].
  apply Hzero. right. exists 256%Z. split; reflexivity.
Defined.

(* ====================================================================== *)
(** * Further properties of the script *)
(* ====================================================================== *)

(** ** [safe_title] *)

Lemma replace_illegal_id (s : pystr) :
  forallb (fun c => negb (illegal c)) s = true -> map replace_illegal s = s.
Proof.
  induction s as [|c r IH]; simpl; [reflexivity|].
  intros H. apply andb_prop in H as [Hc Hr]. rewrite (IH Hr).
  unfold replace_illegal. apply negb_true_iff in Hc. rewrite Hc. reflexivity.
Qed.

Lemma strip_by_fixed (d : N -> bool) (s : pystr) :
  match s with c :: _ => d c = false | [] => True end ->
  match rev s with c :: _ => d c = false | [] => True end ->
  strip_by d s = s.
Proof.
  intros Hfirst Hlast. unfold strip_by, rstrip_by.
  rewrite (lstrip_by_fixed d s Hfirst), (lstrip_by_fixed d (rev s) Hlast).
  apply rev_involutive.
Qed.

(** X1.  Sanitizing twice is sanitizing once: a name that went through
    [safe_title] can be passed to it again, as [download] does with a
    custom name. *)
Theorem safe_title_idempotent (title : pystr) :
  safe_title (safe_title title) = safe_title title.
Proof.
  rewrite (safe_title_map (safe_title title)).
  rewrite (replace_illegal_id _ (safe_title_legal title)).
  rewrite safe_title_map. apply strip_by_idem.
Qed.

(** X2.  The titles that [safe_title] returns unchanged are exactly those that
    hold none of the nine characters and neither start nor end with white
    space. *)
Theorem safe_title_fixed_iff (title : pystr) :
  safe_title title = title
  <->
  forallb (fun c => negb (illegal c)) title = true
  /\ match title with c :: _ => isspace c = false | [] => True end
  /\ match rev title with c :: _ => isspace c = false | [] => True end.
Proof.
  split.
  - intros H. rewrite <- H. split; [apply safe_title_legal|].
    rewrite safe_title_map.
    split; [apply strip_by_first | apply strip_by_last].
  - intros [Hlegal [Hfirst Hlast]].
    rewrite safe_title_map, (replace_illegal_id _ Hlegal).
    apply strip_by_fixed; assumption.
Qed.

(** X3.  [safe_title] never lengthens a title: each character is kept or
    replaced by one underscore, and only white space is cut. *)
Theorem safe_title_length (title : pystr) :
  (length (safe_title title) <= length title)%nat.
Proof.
  destruct (safe_title_padding title) as [lead [trail [_ [_ H]]]].
  apply (f_equal (@length N)) in H.
  rewrite !length_app, length_map in H. lia.
Qed.

(** ** [detect_platform] *)

(** X4.  When the URL parses, the label is one of the three, and it is [other]
    exactly when the lower-cased network location contains none of the five
    names. *)
Theorem detect_platform_labels (E : externals) (url netloc : pystr)
    (Hparse : urlparse_netloc E url = Ok netloc) :
  let lowered := lower (unicode_lower E) netloc in
  (detect_platform E url = Ok (py "youtube")
   \/ detect_platform E url = Ok (py "instagram")
   \/ detect_platform E url = Ok (py "other"))
  /\ (detect_platform E url = Ok (py "other")
      <-> contains (py "youtube.com") lowered
          || contains (py "youtu.be") lowered
          || contains (py "youtube-nocookie.com") lowered
          || contains (py "instagram.com") lowered
          || contains (py "instagr.am") lowered = false).
Proof.
  intros lowered. unfold detect_platform. rewrite Hparse. cbv zeta.
  fold lowered. unfold youtube_hosts, instagram_hosts. cbn [existsb].
  rewrite !orb_false_r.
  destruct (contains (py "youtube.com") lowered),
           (contains (py "youtu.be") lowered),
           (contains (py "youtube-nocookie.com") lowered),
           (contains (py "instagram.com") lowered),
           (contains (py "instagr.am") lowered);
    cbn [orb];
    (split;
     [auto
     |split; intros H;
      first [reflexivity | discriminate H | vm_compute in H; discriminate H]]).
Qed.

Lemma detect_platform_labels_witness :
  let E := Reference.env None in
  urlparse_netloc E (py "https://vimeo.com/1") = Ok (py "vimeo.com")
  /\ detect_platform E (py "https://vimeo.com/1") = Ok (py "other").
Proof.
  intros E. split; [reflexivity|].
  apply (proj2 (detect_platform_labels E (py "https://vimeo.com/1")
                  (py "vimeo.com") eq_refl)).
  reflexivity.
Defined.

Lemma lower_from_ascii (db : pystr -> N -> pystr -> pystr)
    (before s : pystr) :
  forallb (fun c => c <? 0x80) s = true ->
  lower_from db before s = map ascii_lower s.
Proof.
  revert before. induction s as [|c r IH]; intros before H; simpl.
  - reflexivity.
  - simpl in H. apply andb_prop in H as [Hc Hr].
    rewrite Hc, (IH _ Hr). reflexivity.
Qed.

(** X5.  Letter case in an ASCII network location does not matter: two URLs
    whose ASCII network locations differ only in the case of letters get
    the same label. *)
Theorem detect_platform_ignores_case (E : externals)
    (url1 url2 netloc1 netloc2 : pystr)
    (Hparse1 : urlparse_netloc E url1 = Ok netloc1)
    (Hparse2 : urlparse_netloc E url2 = Ok netloc2)
    (Hascii1 : forallb (fun c => c <? 0x80) netloc1 = true)
    (Hascii2 : forallb (fun c => c <? 0x80) netloc2 = true)
    (Hcase : map ascii_lower netloc1 = map ascii_lower netloc2) :
  detect_platform E url1 = detect_platform E url2.
Proof.
  unfold detect_platform, lower. rewrite Hparse1, Hparse2.
  rewrite (lower_from_ascii _ _ _ Hascii1), (lower_from_ascii _ _ _ Hascii2).
  rewrite Hcase. reflexivity.
Qed.

Lemma detect_platform_ignores_case_witness :
  let E := Reference.env None in
  detect_platform E (py "https://WWW.YouTube.COM/watch")
  = detect_platform E (py "https://www.youtube.com/other")
  /\ detect_platform E (py "https://WWW.YouTube.COM/watch") = Ok (py "youtube").
Proof.
  intros E. split; [|reflexivity].
  apply (detect_platform_ignores_case E _ _ (py "WWW.YouTube.COM")
           (py "www.youtube.com")); reflexivity.
Defined.

(** ** The output directory *)

Lemma walk_app (f : fs) (r : pystr) (seen a b : list pystr) :
  walk f r seen (a ++ b)
  = match walk f r seen a with
    | inl e => inl e
    | inr dir => walk f r dir b
    end.
Proof.
  revert seen. induction a as [|c a' IH]; intros seen; simpl.
  - reflexivity.
  - destruct (is_dotdot c); [apply IH|].
    destruct (f !! (r, seen ++ [c])) as [[|]|]; try reflexivity. apply IH.
Qed.

(** Resolution reaches the same directory after entries were added. *)
Lemma walk_mono (f f' : fs) (r : pystr) (seen todo dir : list pystr) :
  f ⊆ f' -> walk f r seen todo = inr dir -> walk f' r seen todo = inr dir.
Proof.
  intros Hsub. revert seen. induction todo as [|c rest IH]; intros seen; simpl.
  - auto.
  - destruct (is_dotdot c); [apply IH|].
    destruct (f !! (r, seen ++ [c])) as [[|]|] eqn:Hc; try discriminate.
    rewrite (lookup_weaken _ _ _ _ Hc Hsub). apply IH.
Qed.


Lemma os_mkdir_created (f f' : fs) (p : PurePath) :
  os_mkdir f p = inr f' -> f ⊆ f' /\ is_dir f' p = true.
Proof.
  destruct p as [r ps]. unfold os_mkdir, is_dir, parent.
  cbn [root parts].
  destruct ps as [|a l]; [discriminate|].
  assert (Hne : a :: l <> []) by discriminate.
  destruct (exists_last Hne) as [l' [c Hl]]. rewrite Hl.
  rewrite removelast_last, last_last.
  destruct (walk f r [] l') as [e|dir] eqn:Hw; [discriminate|].
  destruct (is_dotdot c) eqn:Hc; [discriminate|].
  destruct (f !! (r, dir ++ [c])) as [n|] eqn:Hk; [discriminate|].
  intros H. injection H as <-.
  assert (Hsub : f ⊆ <[(r, dir ++ [c]) := Dir]> f)
    by (apply insert_subseteq; exact Hk).
  split; [exact Hsub|].
  rewrite walk_app, (walk_mono _ _ _ _ _ _ Hsub Hw).
  cbn [walk]. rewrite Hc, lookup_insert_eq. reflexivity.
Qed.

Lemma os_mkdir_exists (f : fs) (p : PurePath) :
  is_dir f p = true -> os_mkdir f p = inl FileExistsError.
Proof.
  destruct p as [r ps]. unfold os_mkdir, is_dir, parent.
  cbn [root parts].
  destruct ps as [|a l]; [reflexivity|].
  assert (Hne : a :: l <> []) by discriminate.
  destruct (exists_last Hne) as [l' [c Hl]]. rewrite Hl.
  rewrite removelast_last, last_last, walk_app.
  destruct (walk f r [] l') as [e|dir] eqn:Hw; [discriminate|].
  cbn [walk]. destruct (is_dotdot c); [reflexivity|].
  destruct (f !! (r, dir ++ [c])) as [[|]|]; try discriminate; reflexivity.
Qed.


Lemma mkdir_exist_ok_spec (f f' : fs) (p : PurePath)
    (res : option (os_error * PurePath)) :
  mkdir_exist_ok f p = (f', res) ->
  f ⊆ f' /\ (res = None -> is_dir f' p = true).
Proof.
  unfold mkdir_exist_ok.
  destruct (os_mkdir f p) as [[| |]|f1] eqn:Hos.
  - intros H. injection H as <- <-. split; [reflexivity|discriminate].
  - destruct (is_dir f p) eqn:Hd; intros H; injection H as <- <-;
      (split; [reflexivity|]); [auto|discriminate].
  - destruct (is_dir f p) eqn:Hd; intros H; injection H as <- <-;
      (split; [reflexivity|]); [auto|discriminate].
  - intros H. injection H as <- <-.
    destruct (os_mkdir_created _ _ _ Hos). auto.
Qed.

Lemma mkdir_parents_spec (r : pystr) (rparts : list pystr) :
  forall (f f' : fs) (res : option (os_error * PurePath)),
    mkdir_parents f r rparts = (f', res) ->
    f ⊆ f' /\ (res = None -> is_dir f' (mkPath r (rev rparts)) = true).
Proof.
  induction rparts as [|c rp IH]; intros f f' res.
  - simpl. intros H. injection H as <- <-. split; reflexivity.
  - cbn [mkdir_parents].
    destruct (os_mkdir f (mkPath r (rev (c :: rp)))) as [[| |]|f1] eqn:Hos.
    + destruct (mkdir_parents f r rp) as [f1 [e|]] eqn:Hrec.
      * intros H. injection H as <- <-.
        split; [exact (proj1 (IH _ _ _ Hrec))|discriminate].
      * intros H. apply mkdir_exist_ok_spec in H as [Hsub Hd].
        split; [|exact Hd].
        transitivity f1; [exact (proj1 (IH _ _ _ Hrec))|exact Hsub].
    + destruct (is_dir f (mkPath r (rev (c :: rp)))) eqn:Hd;
        intros H; injection H as <- <-;
        (split; [reflexivity|]); [auto|discriminate].
    + destruct (is_dir f (mkPath r (rev (c :: rp)))) eqn:Hd;
        intros H; injection H as <- <-;
        (split; [reflexivity|]); [auto|discriminate].
    + intros H. injection H as <- <-.
      destruct (os_mkdir_created _ _ _ Hos). auto.
Qed.


(** [mkdir(parents=True, exist_ok=True)] only adds directories, and when it
    returns the path is a directory. *)
Lemma mkdir_spec (f f' : fs) (p : PurePath)
    (res : option (os_error * PurePath)) :
  mkdir f p = (f', res) ->
  f ⊆ f' /\ (res = None -> is_dir f' p = true).
Proof.
  unfold mkdir. intros H. apply mkdir_parents_spec in H.
  rewrite rev_involutive in H. destruct p. exact H.
Qed.

(** On a path that is a directory, [mkdir] changes nothing and does not
    fail. *)
Lemma mkdir_existing (f : fs) (p : PurePath) :
  is_dir f p = true -> mkdir f p = (f, None).
Proof.
  intros Hd. unfold mkdir.
  assert (Hself : mkPath (root p) (rev (rev (parts p))) = p)
    by (rewrite rev_involutive; destruct p; reflexivity).
  destruct (rev (parts p)) as [|c rp]; cbn [mkdir_parents];
    rewrite Hself, (os_mkdir_exists f p Hd), Hd; reflexivity.
Qed.

(** X6.  Whenever the delegate is called, for any output directory, however
    deep: the expanded output directory exists as a directory on the file
    system the delegate sees, and everything that existed before the run
    is still there, unchanged. *)
Theorem output_directory_exists (E : externals) (url : pystr)
    (audio_only : bool) (quality out_dir : pystr)
    (custom_name : option pystr) (f : fs)
    (opts : gmap string value) (urls : list pystr) (f0 : fs)
    (Hcall : In (EvDownload opts urls f0)
               (events (download E url audio_only quality out_dir
                          custom_name f))) :
  exists out_path,
    expanduser (os_path_expanduser E) (Path out_dir) = Ok out_path
    /\ is_dir f0 out_path = true
    /\ f ⊆ f0.
Proof.
  destruct (download_called _ _ _ _ _ _ _ _ _ _ Hcall)
    as [p [platform [Hexp [Hmk _]]]].
  exists p. split; [exact Hexp|].
  apply mkdir_spec in Hmk as [Hsub Hd]. auto.
Qed.

Lemma output_directory_exists_witness :
  let E := Reference.env None in
  let old := <[([], [py "notes.txt"]) := File]> (∅ : fs) in
  exists opts urls f0,
    In (EvDownload opts urls f0)
       (events (download E (py "https://youtu.be/x") false (py "best")
                  (py "media/2024/clips") None old))
    /\ is_dir f0 (Path (py "media/2024/clips")) = true
    /\ f0 !! ([], [py "media"; py "2024"]) = Some Dir
    /\ f0 !! ([], [py "notes.txt"]) = Some File.
Proof.
  intros E old.
  assert (Hcall :
    In (EvDownload
          (options_of (Path (py "media/2024/clips")) false (py "best") None)
          [py "https://youtu.be/x"]
          (mkdir old (Path (py "media/2024/clips"))).1)
       (events (download E (py "https://youtu.be/x") false (py "best")
                  (py "media/2024/clips") None old))).
  { apply (download_calls E _ _ _ _ _ _ _ _ (py "youtube")); reflexivity. }
  destruct (output_directory_exists E _ _ _ _ _ _ _ _ _ Hcall)
    as [p [Hexp [Hd Hsub]]].
  eexists _, _, _. split; [exact Hcall|].
  assert (Hp : p = Path (py "media/2024/clips")).
  { assert (H : expanduser (os_path_expanduser E) (Path (py "media/2024/clips"))
                = Ok (Path (py "media/2024/clips"))) by reflexivity.
    rewrite H in Hexp. injection Hexp as <-. reflexivity. }
  subst p. split; [exact Hd|]. split.
  - reflexivity.
  - apply (lookup_weaken old _ _ _); [reflexivity|exact Hsub].
Defined.

(** X7.  An output directory that already exists is used as it is: [mkdir] does
    not fail on it ([exist_ok]) and the delegate is called on the file
    system unchanged, provided the URL parses and the two status lines can
    be written. *)
Theorem existing_directory_reused (E : externals) (url : pystr)
    (audio_only : bool) (quality out_dir : pystr)
    (custom_name : option pystr) (f : fs)
    (out_path : PurePath) (netloc : pystr)
    (Hexp : expanduser (os_path_expanduser E) (Path out_dir) = Ok out_path)
    (Hdir : is_dir f out_path = true)
    (Hparse : urlparse_netloc E url = Ok netloc)
    (Hout : forall s, stdout_write E s = None) :
  In (EvDownload (options_of out_path audio_only quality custom_name) [url] f)
     (events (download E url audio_only quality out_dir custom_name f)).
Proof.
  destruct (detect_platform_total E url netloc Hparse) as [platform Hdet].
  apply (download_calls E _ _ _ _ _ _ _ _ platform);
    auto using mkdir_existing.
Qed.

Lemma existing_directory_reused_witness :
  let E := Reference.env None in
  let old := <[([], [py "downloads"]) := Dir]> (∅ : fs) in
  is_dir old (Path (py "downloads")) = true
  /\ In (EvDownload (options_of (Path (py "downloads")) true (py "best") None)
           [py "https://youtu.be/x"] old)
        (events (download E (py "https://youtu.be/x") true (py "best")
                   (py "downloads") None old)).
Proof.
  intros E old. split; [reflexivity|].
  apply (existing_directory_reused E _ _ _ _ _ _ (Path (py "downloads"))
           (py "youtu.be")); reflexivity.
Defined.



(** X9.  A URL that [urlparse] rejects ends the run with that exception after
    the output directory was created: nothing is printed and the delegate
    is not called, but the directory is there. *)
Theorem rejected_url_leaves_directory (E : externals) (url : pystr)
    (audio_only : bool) (quality out_dir : pystr)
    (custom_name : option pystr) (f f1 : fs)
    (out_path : PurePath) (e : exn)
    (Hexp : expanduser (os_path_expanduser E) (Path out_dir) = Ok out_path)
    (Hmk : mkdir f out_path = (f1, None))
    (Hparse : urlparse_netloc E url = Raise e) :
  download E url audio_only quality out_dir custom_name f
  = (f1, [], Raise e)
  /\ is_dir f1 out_path = true
  /\ f ⊆ f1.
Proof.
  rewrite download_run, Hexp, Hmk.
  unfold detect_platform. rewrite Hparse.
  apply mkdir_spec in Hmk as [Hsub Hd]. auto.
Qed.

Lemma rejected_url_leaves_directory_witness :
  let E := Reference.env None in
  download E (py "https://[youtube.com/watch") false (py "best")
    (py "downloads") None ∅
  = (<[([], [py "downloads"]) := Dir]> ∅, [],
     Raise (Error "ValueError" (py "Invalid IPv6 URL"))).
Proof.
  intros E.
  exact (proj1 (rejected_url_leaves_directory E
                  (py "https://[youtube.com/watch") false (py "best")
                  (py "downloads") None ∅ _ (Path (py "downloads")) _
                  eq_refl eq_refl eq_refl)).
Defined.

(** X10.  When the output directory starts with a tilde component and the home
    directory cannot be determined, [download] raises [RuntimeError] before
    it touches the file system or prints anything. *)
Theorem unknown_home_no_effect (E : externals) (url : pystr)
    (audio_only : bool) (quality out_dir : pystr)
    (custom_name : option pystr) (f : fs)
    (first : pystr) (rest : list pystr)
    (Hroot : root (Path out_dir) = [])
    (Hparts : parts (Path out_dir) = first :: rest)
    (Htilde : startswith (py "~") first = true)
    (Hhome : startswith (py "~") (os_path_expanduser E first) = true) :
  download E url audio_only quality out_dir custom_name f
  = (f, [],
     Raise (Error "RuntimeError" (py "Could not determine home directory."))).
Proof.
  rewrite download_run. unfold expanduser.
  rewrite Hroot, Hparts, Htilde, Hhome. reflexivity.
Qed.

Lemma unknown_home_no_effect_witness :
  let E := Reference.env None in
  download E (py "https://youtu.be/x") false (py "best")
    (py "~nobody/videos") None ∅
  = (∅, [],
     Raise (Error "RuntimeError" (py "Could not determine home directory."))).
Proof.
  intros E.
  apply (unknown_home_no_effect E _ _ _ _ _ _ (py "~nobody") [py "videos"]);
    reflexivity.
Defined.

(** ** Messages and the delegate call *)

Lemma platform_line_not_finished (platform : pystr) :
  EvPrint (platform_line platform) <> EvPrint finished_line.
Proof. unfold platform_line, finished_line. intros H. discriminate H. Qed.

Lemma saving_line_not_finished (out_path : PurePath) :
  EvPrint (saving_line out_path) <> EvPrint finished_line.
Proof. unfold saving_line, finished_line. intros H. discriminate H. Qed.

(** X11.  The line [finished] is printed exactly when [download] returns
    normally: never after an exception, whichever call raised it. *)
Theorem finished_iff_returned (E : externals) (url : pystr)
    (audio_only : bool) (quality out_dir : pystr)
    (custom_name : option pystr) (f : fs) :
  In (EvPrint finished_line)
     (events (download E url audio_only quality out_dir custom_name f))
  <-> outcome (download E url audio_only quality out_dir custom_name f)
      = Ok tt.
Proof.
  rewrite download_run.
  destruct (expanduser _ _) as [p|e];
    [|split; [intros []|discriminate]].
  destruct (mkdir f p) as [f1 [[e q]|]];
    [split; [intros []|discriminate]|].
  destruct (detect_platform E url) as [platform|e];
    [|split; [intros []|discriminate]].
  cbv zeta.
  pose proof (platform_line_not_finished platform) as N1.
  pose proof (saving_line_not_finished p) as N2.
  destruct (stdout_write E (platform_line platform));
    [split; [intros []|discriminate]|].
  destruct (stdout_write E (saving_line p)).
  { split; [|discriminate]. intros [H|[]]. contradiction. }
  destruct (ydl_download E _ [url] f1) as [f2 [e|]].
  { split; [|discriminate].
    intros [H|[H|[H|[]]]]; try contradiction. discriminate H. }
  destruct (stdout_write E finished_line).
  { split; [|discriminate].
    intros [H|[H|[H|[]]]]; try contradiction. discriminate H. }
  split; [reflexivity|]. intros _. unfold events. simpl. auto.
Qed.

(** X12.  The delegate is called at most once, after the platform line and the
    line with the output directory were printed, in that order; what
    follows the call is nothing, or the line [finished] when the run
    returns normally. *)
Theorem delegate_called_after_lines (E : externals) (url : pystr)
    (audio_only : bool) (quality out_dir : pystr)
    (custom_name : option pystr) (f : fs)
    (opts : gmap string value) (urls : list pystr) (f0 : fs)
    (Hcall : In (EvDownload opts urls f0)
               (events (download E url audio_only quality out_dir
                          custom_name f))) :
  exists platform out_path tail,
    detect_platform E url = Ok platform
    /\ expanduser (os_path_expanduser E) (Path out_dir) = Ok out_path
    /\ events (download E url audio_only quality out_dir custom_name f)
       = [EvPrint (platform_line platform); EvPrint (saving_line out_path);
          EvDownload opts urls f0] ++ tail
    /\ (tail = []
        \/ tail = [EvPrint finished_line]
           /\ outcome (download E url audio_only quality out_dir
                         custom_name f) = Ok tt).
Proof.
  destruct (download_called _ _ _ _ _ _ _ _ _ _ Hcall)
    as [p [platform [Hexp [Hmk [Hdet [-> ->]]]]]].
  exists platform, p.
  rewrite download_run, Hexp, Hmk, Hdet in Hcall |- *.
  cbv zeta in Hcall |- *.
  destruct (stdout_write E (platform_line platform)); [destruct Hcall|].
  destruct (stdout_write E (saving_line p)).
  { destruct Hcall as [H|[]]. discriminate H. }
  destruct (ydl_download E _ [url] f0) as [f2 [e|]].
  { exists []. repeat split; auto. }
  destruct (stdout_write E finished_line).
  - exists []. repeat split; auto.
  - exists [EvPrint finished_line]. repeat split; auto.
Qed.

Lemma delegate_called_after_lines_witness :
  let E := Reference.env (Some (Error "DownloadError" (py "private video"))) in
  events (download E (py "https://youtu.be/x") false (py "best")
            (py "downloads") None ∅)
  = [EvPrint (platform_line (py "youtube"));
     EvPrint (saving_line (Path (py "downloads")));
     EvDownload (options_of (Path (py "downloads")) false (py "best") None)
       [py "https://youtu.be/x"] (<[([], [py "downloads"]) := Dir]> ∅)].
Proof.
  intros E.
  assert (Hcall :
    In (EvDownload (options_of (Path (py "downloads")) false (py "best") None)
          [py "https://youtu.be/x"] (mkdir ∅ (Path (py "downloads"))).1)
       (events (download E (py "https://youtu.be/x") false (py "best")
                  (py "downloads") None ∅))).
  { apply (download_calls E _ _ _ _ _ _ _ _ (py "youtube")); reflexivity. }
  destruct (delegate_called_after_lines E _ _ _ _ _ _ _ _ _ Hcall)
    as [platform [p [tail [_ [_ [Hev _]]]]]].
  reflexivity.
Defined.

(** ** The option dictionary, for every argument *)

(** X13.  Every dictionary handed to the delegate has [ignoreerrors] and [quiet]
    false and [no_warnings] true; it asks for post-processing exactly when
    the audio-only flag is set; and it has no other keys than these, the
    template and the format. *)
Theorem options_flags (E : externals) (url : pystr)
    (audio_only : bool) (quality out_dir : pystr)
    (custom_name : option pystr) (f : fs)
    (opts : gmap string value) (urls : list pystr) (f0 : fs)
    (Hcall : In (EvDownload opts urls f0)
               (events (download E url audio_only quality out_dir
                          custom_name f))) :
  opts !! "ignoreerrors" = Some (VBool false)
  /\ opts !! "quiet" = Some (VBool false)
  /\ opts !! "no_warnings" = Some (VBool true)
  /\ (is_Some (opts !! "postprocessors") <-> audio_only = true)
  /\ dom opts
     = ({[ "outtmpl"; "ignoreerrors"; "quiet"; "no_warnings"; "format" ]}
        ∪ (if audio_only then {[ "postprocessors" ]} else ∅) : gset string).
Proof.
  destruct (download_called _ _ _ _ _ _ _ _ _ _ Hcall)
    as [p [platform [_ [_ [_ [-> _]]]]]].
  unfold options_of, base_options.
  destruct audio_only; simplify_map_eq; repeat split; try done;
    try (intros [x Hx]; discriminate Hx);
    rewrite !dom_insert_L, dom_empty_L; set_solver.
Qed.

Lemma options_flags_witness :
  let E := Reference.env None in
  exists opts urls f0,
    In (EvDownload opts urls f0)
       (events (download E (py "https://youtu.be/x") false (py "worst")
                  (py "downloads") None ∅))
    /\ opts !! "postprocessors" = None
    /\ opts !! "format" = Some (VStr (py "worst")).
Proof.
  intros E.
  assert (Hcall :
    In (EvDownload
          (options_of (Path (py "downloads")) false (py "worst") None)
          [py "https://youtu.be/x"] (mkdir ∅ (Path (py "downloads"))).1)
       (events (download E (py "https://youtu.be/x") false (py "worst")
                  (py "downloads") None ∅))).
  { apply (download_calls E _ _ _ _ _ _ _ _ (py "youtube")); reflexivity. }
  pose proof (options_flags E _ _ _ _ _ _ _ _ _ Hcall) as [_ [_ [_ [Hpp _]]]].
  eexists _, _, _. split; [exact Hcall|].
  split; [|reflexivity].
  destruct (options_of (Path (py "downloads")) false (py "worst") None
              !! "postprocessors") as [v|] eqn:Hv; [|reflexivity].
  assert (Hs : is_Some (Some v)) by eauto.
  apply Hpp in Hs. discriminate Hs.
Defined.

(** ** The format selector of a resolution token *)

Lemma split_char_sep_app (a b : pystr) :
  forallb (fun c => negb (c =? sep)) a = true ->
  split_char sep (a ++ sep :: b) = a :: split_char sep b.
Proof.
  induction a as [|c a' IH]; simpl; [reflexivity|].
  intros H. apply andb_prop in H as [Hc Ha].
  apply negb_true_iff in Hc. rewrite Hc, (IH Ha). reflexivity.
Qed.

Lemma forallb_char_in_one (x : N) (b : pystr) :
  forallb (char_in [x]) b = true -> b = repeat x (length b).
Proof.
  induction b as [|c r IH]; simpl; [reflexivity|].
  intros H. apply andb_prop in H as [Hc Hr].
  rewrite orb_false_r in Hc. apply N.eqb_eq in Hc. subst c.
  f_equal. exact (IH Hr).
Qed.

(** X14.  For every quality token other than [best] and [worst] and without a
    slash: the height is the token without all its trailing letters p, the
    token being the height followed by them; the selector handed to the
    delegate has exactly three tiers, the first two bounded by that height,
    the last one [best]. *)
Theorem resolution_selector (E : externals) (url quality out_dir : pystr)
    (custom_name : option pystr) (f : fs)
    (opts : gmap string value) (urls : list pystr) (f0 : fs)
    (Hbest : quality <> py "best")
    (Hworst : quality <> py "worst")
    (Hsep : forallb (fun c => negb (c =? sep)) quality = true)
    (Hcall : In (EvDownload opts urls f0)
               (events (download E url false quality out_dir custom_name f))) :
  let height := rstrip_chars (py "p") quality in
  let selector :=
    py "bestvideo[height<=" ++ height ++ py "][ext=mp4]+bestaudio[ext=m4a]"
      ++ py "/best[height<=" ++ height ++ py "]/best" in
  opts !! "format" = Some (VStr selector)
  /\ tiers selector
     = [ py "bestvideo[height<=" ++ height
           ++ py "][ext=mp4]+bestaudio[ext=m4a]";
         py "best[height<=" ++ height ++ py "]";
         py "best" ]
  /\ (exists k, quality = height ++ repeat 0x70 k)
  /\ match rev height with c :: _ => c <> 0x70 | [] => True end.
Proof.
  intros height selector.
  destruct (download_called _ _ _ _ _ _ _ _ _ _ Hcall)
    as [p [platform [_ [_ [_ [-> _]]]]]].
  destruct (rstrip_by_split (char_in (py "p")) quality) as [b [Hb Hq]].
  fold (rstrip_chars (py "p") quality) in Hq. fold height in Hq.
  assert (Hh : forallb (fun c => negb (c =? sep)) height = true).
  { rewrite Hq, forallb_app in Hsep. apply andb_prop in Hsep as [H _].
    exact H. }
  split; [|split; [|split]].
  - rewrite options_of_format_video. unfold format_of.
    rewrite !bool_decide_eq_false_2 by assumption. reflexivity.
  - unfold tiers, selector.
    replace (py "bestvideo[height<=" ++ height
               ++ py "][ext=mp4]+bestaudio[ext=m4a]"
               ++ py "/best[height<=" ++ height ++ py "]/best")
      with ((py "bestvideo[height<=" ++ height
               ++ py "][ext=mp4]+bestaudio[ext=m4a]")
              ++ sep :: (py "best[height<=" ++ height ++ py "]")
              ++ sep :: py "best")
      by (rewrite <- !app_assoc; reflexivity).
    rewrite split_char_sep_app
      by (rewrite !forallb_app, Hh; reflexivity).
    rewrite split_char_sep_app
      by (rewrite !forallb_app, Hh; reflexivity).
    reflexivity.
  - exists (length b). rewrite Hq at 1. f_equal.
    apply (forallb_char_in_one 0x70 b Hb).
  - pose proof (rstrip_by_last (char_in (py "p")) quality) as Hl.
    fold (rstrip_chars (py "p") quality) in Hl. fold height in Hl.
    destruct (rev height) as [|c r]; [exact I|].
    intros ->. discriminate Hl.
Qed.

Lemma resolution_selector_witness :
  let E := Reference.env None in
  exists opts urls f0,
    In (EvDownload opts urls f0)
       (events (download E (py "https://youtu.be/x") false (py "1080pp")
                  (py "downloads") None ∅))
    /\ opts !! "format"
       = Some (VStr (py "bestvideo[height<=1080][ext=mp4]+bestaudio[ext=m4a]/best[height<=1080]/best")).
Proof.
  intros E.
  assert (Hcall :
    In (EvDownload
          (options_of (Path (py "downloads")) false (py "1080pp") None)
          [py "https://youtu.be/x"] (mkdir ∅ (Path (py "downloads"))).1)
       (events (download E (py "https://youtu.be/x") false (py "1080pp")
                  (py "downloads") None ∅))).
  { apply (download_calls E _ _ _ _ _ _ _ _ (py "youtube")); reflexivity. }
  assert (Hbest : py "1080pp" <> py "best") by discriminate.
  assert (Hworst : py "1080pp" <> py "worst") by discriminate.
  eexists _, _, _. split; [exact Hcall|].
  rewrite (proj1 (resolution_selector E (py "https://youtu.be/x")
                    (py "1080pp") (py "downloads") None ∅ _ _ _
                    Hbest Hworst eq_refl Hcall)).
  reflexivity.
Defined.

(** ** The template, for every custom name *)

(** X15.  Whatever the custom name, the template names a file directly inside the
    output directory: after the directory comes one more component, the
    sanitized name with the extension placeholder, which holds no slash, no
    backslash and none of the other characters of the set. *)
Theorem template_stays_in_directory (E : externals) (url : pystr)
    (audio_only : bool) (quality out_dir : pystr)
    (custom_name : option pystr) (f : fs)
    (opts : gmap string value) (urls : list pystr) (f0 : fs)
    (out_path : PurePath)
    (Hexp : expanduser (os_path_expanduser E) (Path out_dir) = Ok out_path)
    (Hcall : In (EvDownload opts urls f0)
               (events (download E url audio_only quality out_dir
                          custom_name f))) :
  exists stem,
    let file := stem ++ py ".%(ext)s" in
    opts !! "outtmpl"
    = Some (VStr (Path_str (mkPath (root out_path)
                              (parts out_path ++ [file]))))
    /\ opts !! "outtmpl" = Some (VStr (dir_prefix out_path ++ file))
    /\ forallb (fun c => negb (illegal c)) file = true
    /\ forallb (fun c => negb (c =? sep)) file = true
    /\ stem = safe_title (or_else custom_name (py "%(title)s")).
Proof.
  destruct (download_called _ _ _ _ _ _ _ _ _ _ Hcall)
    as [p [platform [Hexp' [_ [_ [-> _]]]]]].
  rewrite Hexp in Hexp'. injection Hexp' as <-.
  exists (safe_title (or_else custom_name (py "%(title)s"))). cbv zeta.
  assert (Hlegal :
    forallb (fun c => negb (illegal c))
      (safe_title (or_else custom_name (py "%(title)s")) ++ py ".%(ext)s")
    = true)
    by (rewrite forallb_app, safe_title_legal; reflexivity).
  rewrite options_of_outtmpl.
  split; [|split; [|split; [|split]]].
  - rewrite Path_str_snoc, template_of_text. destruct out_path. reflexivity.
  - rewrite template_of_text. reflexivity.
  - exact Hlegal.
  - exact (legal_no_sep _ Hlegal).
  - reflexivity.
Qed.

Lemma template_stays_in_directory_witness :
  let E := Reference.env None in
  exists opts urls f0,
    In (EvDownload opts urls f0)
       (events (download E (py "https://youtu.be/x") false (py "best")
                  (py "downloads") (Some (py "../../etc/passwd")) ∅))
    /\ opts !! "outtmpl"
       = Some (VStr (py "downloads/.._.._etc_passwd.%(ext)s")).
Proof.
  intros E.
  assert (Hcall :
    In (EvDownload
          (options_of (Path (py "downloads")) false (py "best")
             (Some (py "../../etc/passwd")))
          [py "https://youtu.be/x"] (mkdir ∅ (Path (py "downloads"))).1)
       (events (download E (py "https://youtu.be/x") false (py "best")
                  (py "downloads") (Some (py "../../etc/passwd")) ∅))).
  { apply (download_calls E _ _ _ _ _ _ _ _ (py "youtube")); reflexivity. }
  destruct (template_stays_in_directory E (py "https://youtu.be/x") false
              (py "best") (py "downloads") (Some (py "../../etc/passwd")) ∅
              _ _ _ (Path (py "downloads")) eq_refl Hcall)
    as [stem [_ [Htext [_ [_ Hstem]]]]].
  eexists _, _, _. split; [exact Hcall|].
  rewrite Htext, Hstem. reflexivity.
Defined.

(** X16.  A custom name made of white space only is given, so the title
    placeholder is not used, but it is stripped to nothing: the template is
    the extension placeholder alone under the output directory. *)
Theorem blank_name_template (E : externals) (url : pystr)
    (audio_only : bool) (quality out_dir name : pystr) (f : fs)
    (opts : gmap string value) (urls : list pystr) (f0 : fs)
    (out_path : PurePath)
    (Hname : name <> [])
    (Hblank : forallb isspace name = true)
    (Hexp : expanduser (os_path_expanduser E) (Path out_dir) = Ok out_path)
    (Hcall : In (EvDownload opts urls f0)
               (events (download E url audio_only quality out_dir
                          (Some name) f))) :
  opts !! "outtmpl" = Some (VStr (dir_prefix out_path ++ py ".%(ext)s")).
Proof.
  destruct (download_called _ _ _ _ _ _ _ _ _ _ Hcall)
    as [p [platform [Hexp' [_ [_ [-> _]]]]]].
  rewrite Hexp in Hexp'. injection Hexp' as <-.
  rewrite options_of_outtmpl, template_of_text.
  assert (Hor : or_else (Some name) (py "%(title)s") = name)
    by (destruct name; [contradiction|reflexivity]).
  rewrite Hor, safe_title_map, (replace_illegal_space name Hblank).
  unfold strip, strip_by. rewrite (lstrip_by_all isspace name Hblank).
  reflexivity.
Qed.

Lemma blank_name_template_witness :
  let E := Reference.env None in
  exists opts urls f0,
    In (EvDownload opts urls f0)
       (events (download E (py "https://youtu.be/x") false (py "best")
                  (py "downloads") (Some (py "   ")) ∅))
    /\ opts !! "outtmpl" = Some (VStr (py "downloads/.%(ext)s")).
Proof.
  intros E.
  assert (Hcall :
    In (EvDownload
          (options_of (Path (py "downloads")) false (py "best")
             (Some (py "   ")))
          [py "https://youtu.be/x"] (mkdir ∅ (Path (py "downloads"))).1)
       (events (download E (py "https://youtu.be/x") false (py "best")
                  (py "downloads") (Some (py "   ")) ∅))).
  { apply (download_calls E _ _ _ _ _ _ _ _ (py "youtube")); reflexivity. }
  assert (Hname : py "   " <> []) by discriminate.
  eexists _, _, _. split; [exact Hcall|].
  rewrite (blank_name_template E (py "https://youtu.be/x") false (py "best")
             (py "downloads") (py "   ") ∅ _ _ _ (Path (py "downloads"))
             Hname eq_refl eq_refl Hcall).
  reflexivity.
Defined.

(** ** [main] and the exit status *)

(** X17.  How [main] ends, whatever happened in [download]: it emits the events
    of [download] and leaves its file system; the status is 0 when
    [download] returned; a [KeyboardInterrupt] raised anywhere in
    [download], not only by the delegate, gives the abort message and
    status 1; an error gives its traceback and status 1; and the process
    never ends on an uncaught [KeyboardInterrupt]. *)
Theorem main_exit (E : externals) (args : Namespace) (f : fs) :
  let d := download E (args_url args) (args_audio_only args)
             (args_quality args) (args_output_dir args) (args_name args) f in
  let m := main E args f in
  outcome m <> Raise KeyboardInterrupt
  /\ events m = events d
  /\ m.1.1 = d.1.1
  /\ (outcome d = Ok tt -> interpreter_exit (outcome m) = (Silent, 0%Z))
  /\ (outcome d = Raise KeyboardInterrupt ->
      interpreter_exit (outcome m) = (Message abort_message, 1%Z))
  /\ (forall cls msg, outcome d = Raise (Error cls msg) ->
      interpreter_exit (outcome m) = (Traceback cls msg, 1%Z)).
Proof.
  intros d m. split; [apply main_not_interrupted|].
  subst m. unfold main, try_except_KeyboardInterrupt, sys_exit, raise.
  fold d. destruct d as [[f1 ev] [[]|[| |]]]; unfold events, outcome; simpl;
    rewrite ?app_nil_r; repeat split; try discriminate; try reflexivity.
  intros cls0 msg0 H. injection H as <- <-. reflexivity.
Qed.

Lemma main_exit_witness :
  let E := {| unicode_lower := fun _ c _ => [c];
              unicode_printable := fun _ => true;
              urlparse_netloc := Reference.urlsplit_netloc
                                   (fun _ => true) (fun _ => true);
              os_path_expanduser := fun s => s;
              stdout_write :=
                fun s => if bool_decide (s = platform_line (py "youtube"))
                         then None else Some KeyboardInterrupt;
              ydl_download := fun _ _ g => (g, None) |} in
  let args := default_args (py "https://youtu.be/x") in
  events (main E args ∅) = [EvPrint (platform_line (py "youtube"))]
  /\ interpreter_exit (outcome (main E args ∅))
     = (Message abort_message, 1%Z).
Proof.
  intros E args.
  destruct (main_exit E args ∅) as [_ [Hev [_ [_ [Hint _]]]]].
  split; [rewrite Hev; reflexivity|].
  apply Hint. reflexivity.
Defined.

Lemma safe_title_fixed_iff_witness :
  safe_title (py "My clip (final) v2") = py "My clip (final) v2".
Proof.
  apply (proj2 (safe_title_fixed_iff (py "My clip (final) v2"))).
  repeat split; reflexivity.
Defined.

Lemma finished_iff_returned_witness :
  let E := Reference.env (Some (Error "DownloadError" (py "private video"))) in
  ~ In (EvPrint finished_line)
       (events (download E (py "https://youtu.be/x") false (py "best")
                  (py "downloads") None ∅)).
Proof.
  intros E H.
  apply (proj1 (finished_iff_returned E _ _ _ _ _ _)) in H.
  discriminate H.
Defined.
